(** * Upload-and-poll retry driver of the video analysis application

    A shallow embedding of [Video_Summary/App.py]: the format check and
    staging of [VideoAnalyzer.process_video], the retry loop of
    [VideoAnalyzer.analyze_video] and the control flow of [main] around
    them.  The collaborators the program talks to (the media upload
    service, the inference agent, the wall clock, the file system and the
    widgets of the page) are an environment that answers each call from
    the history of the calls made so far; the program threads that
    history, newest call first, through an error monad of its own. *)

From Stdlib Require Import ZArith List String Ascii Bool Lia DecimalString.
From Stdlib Require QArith.
Import ListNotations.

Local Open Scope string_scope.
Local Open Scope Z_scope.

(** ** Python built-ins used by the source *)

Module Py.

(** [str.lower] on the ASCII range; other bytes are left as they are. *)
Definition lower_ascii (c : ascii) : ascii :=
  let n := nat_of_ascii c in
  if ((65 <=? n) && (n <=? 90))%nat then ascii_of_nat (n + 32) else c.

Fixpoint lower (s : string) : string :=
  match s with
  | EmptyString => EmptyString
  | String c s' => String (lower_ascii c) (lower s')
  end.

(** [s.endswith(suffix)]: some tail of [s] is [suffix]. *)
Fixpoint endswith (s suffix : string) : bool :=
  (s =? suffix)%string ||
  match s with
  | EmptyString => false
  | String _ s' => endswith s' suffix
  end.

(** [s.endswith(tuple)]: one of the suffixes of the tuple fits. *)
Definition endswith_any (s : string) (suffixes : list string) : bool :=
  existsb (endswith s) suffixes.

(** [sep.join(items)] *)
Fixpoint join (sep : string) (items : list string) : string :=
  match items with
  | [] => ""
  | [x] => x
  | x :: rest => x ++ sep ++ join sep rest
  end.

(** [str(n)] for an [int]. *)
Definition str_int (n : Z) : string := NilZero.string_of_int (Z.to_int n).

(** How an f-string prints a value that is [None] or a [str]. *)
Definition str_optional (v : option string) : string :=
  match v with
  | None => "None"
  | Some s => s
  end.

Definition quote : string := String (ascii_of_nat 34) EmptyString.

End Py.

(** ** Data structures *)

Record VideoAnalysisConfig := {
  supported_formats : list string;
  max_retries : Z;
  retry_delay : Z;
  timeout : Z
}.

(** The defaults of the dataclass. *)
Definition default_config : VideoAnalysisConfig :=
  {| supported_formats := ["mp4"; "mov"; "avi"];
     max_retries := 3;
     retry_delay := 2;
     timeout := 300 |}.

(** Exceptions, with the message [str(e)] gives back.  The first three are
    raised by the source or by [time.sleep]; [ServiceError] stands for any
    [Exception] a collaborator raises. *)
Inductive exn :=
| ValueError (msg : string)
| FileNotFoundError (msg : string)
| TimeoutError (msg : string)
| ServiceError (msg : string).

Definition str_exn (e : exn) : string :=
  match e with
  | ValueError m | FileNotFoundError m | TimeoutError m | ServiceError m => m
  end.

(** The handle [genai.upload_file] and [genai.get_file] give back: the
    program reads [name] and [state.name] from it. *)
Record File := {
  file_name : string;
  file_state_name : string
}.

(** The object the page's file uploader hands over. *)
Record UploadedFile := {
  uploaded_name : string;
  uploaded_bytes : string
}.

(** The dictionary [analyze_video] returns. *)
Inductive Outcome :=
| Success (content : string) (processing_time : Z)
| Failure (error : string).

(** Calls of the page that show something. *)
Inductive Display :=
| StVideo (path : string)
| StWarning (msg : string)
| StSuccess (processing_time : Z)
| StMarkdown (text : string)
| StError (msg : string)
| StInfo (msg : string).

(** One entry of the history: a call and its answer.  [EvCaught] is not a
    call: it marks the entry of the handler of [analyze_video], where
    [attempts] is incremented and [last_error] is set. *)
Inductive Event :=
| EvExists (path : string) (found : bool)
| EvUpload (path : string) (r : exn + File)
| EvGetFile (name : string) (r : exn + File)
| EvAgentRun (prompt : string) (video : File) (r : exn + string)
| EvTime (t : Z)
| EvSleep (secs : Z)
| EvCaught (msg : string)
| EvTempFile (r : exn + string)
| EvWrite (path : string) (data : string) (r : option exn)
| EvUnlink (path : string)
| EvSt (d : Display).

Definition History := list Event.

(** The environment: what each collaborator answers after a given history.
    Clock readings are integers, in the unit [timeout] and [retry_delay]
    are given in. *)
Record Env := {
  path_exists : History -> string -> bool;
  upload_file : History -> string -> exn + File;
  get_file : History -> string -> exn + File;
  agent_run : History -> string -> File -> exn + string;
  clock : History -> Z;
  temp_file : History -> exn + string;
  write_file : History -> string -> string -> option exn
}.

(** ** The monad of the program: history, exceptions, and fuel *)

Inductive Res (A : Type) :=
| Ok (a : A)
| Raise (e : exn).
Arguments Ok {A} a.
Arguments Raise {A} e.

(** [None] is a loop that ran out of fuel. *)
Definition M (A : Type) := History -> option (Res A * History).

Definition ret {A} (a : A) : M A := fun h => Some (Ok a, h).

Definition raise {A} (e : exn) : M A := fun h => Some (Raise e, h).

Definition diverge {A} : M A := fun _ => None.

Definition bind {A B} (m : M A) (k : A -> M B) : M B :=
  fun h =>
    match m h with
    | None => None
    | Some (Raise e, h1) => Some (Raise e, h1)
    | Some (Ok a, h1) => k a h1
    end.

Notation "x <- m ;; k" := (bind m (fun x => k))
  (at level 61, m at next level, right associativity).
Notation "m ;;; k" := (bind m (fun _ => k))
  (at level 61, right associativity).

(** [try: m finally: cleanup] *)
Definition try_finally {A} (m : M A) (cleanup : M unit) : M A :=
  fun h =>
    match m h with
    | None => None
    | Some (r, h1) =>
        match cleanup h1 with
        | None => None
        | Some (Raise e, h2) => Some (Raise e, h2)
        | Some (Ok _, h2) => Some (r, h2)
        end
    end.

(** [try: m except Exception as e: handler e] *)
Definition try_except {A} (m : M A) (handler : exn -> M A) : M A :=
  fun h =>
    match m h with
    | None => None
    | Some (Raise e, h1) => handler e h1
    | Some (Ok a, h1) => Some (Ok a, h1)
    end.

Definition lift {A} (r : exn + A) : Res A :=
  match r with
  | inl e => Raise e
  | inr a => Ok a
  end.

(** ** The prompt templates of [generate_analysis_prompt] *)

Definition base_prompt_head : string :=
  "
        As an expert video analyst, I'll examine this video comprehensively and provide detailed insights.
        
        User's Question: ".

Definition base_prompt_tail : string :=
  "
        
        Analysis Framework:
        1. Content Overview
        - Visual elements and composition
        - Audio components (speech, music, effects)
        - Overall narrative and flow
        - Production quality and style
        
        2. Detailed Analysis
        - Key moments and highlights (with timestamps)
        - Important patterns or themes
        - Technical elements worth noting
        - Contextual significance
        
        3. Specific Response to User Query
        [Provide detailed, evidence-based response to the user's question]
        
        4. Additional Insights
        - Background context and relevance
        - Notable observations
        - Potential applications or implications
        - Related information from web research
        
        Please structure the response as follows:
        
        üìΩÔ∏è VIDEO SUMMARY
        [Brief but comprehensive overview]
        
        üéØ ADDRESSING YOUR QUESTION
        [Direct response with specific examples]
        
        üí° KEY INSIGHTS
        [Notable findings and patterns]
        
        üîç ADDITIONAL CONTEXT
        [Relevant background and web research]
        
        Keep the analysis:
        - Clear and conversational
        - Well-supported with specific examples
        - Balanced between technical detail and accessibility
        - Focused on practical insights
        ".

Definition tutorial_prompt : string :=
  "
            Additional Tutorial-Specific Analysis:
            - Learning objectives and their clarity
            - Step-by-step instruction quality
            - Practical demonstration effectiveness
            - Prerequisites and target audience
            ".

Definition presentation_prompt : string :=
  "
            Additional Presentation-Specific Analysis:
            - Slide design and visual aids
            - Speaker delivery and engagement
            - Key message clarity
            - Supporting evidence quality
            ".

Definition product_prompt : string :=
  "
            Additional Product-Specific Analysis:
            - Feature demonstration clarity
            - Value proposition communication
            - Technical specifications coverage
            - Comparison with similar products
            ".

Definition type_specific_prompts : list (string * string) :=
  [("tutorial", tutorial_prompt);
   ("presentation", presentation_prompt);
   ("product", product_prompt)].

Fixpoint dict_get (d : list (string * string)) (key : string)
  : option string :=
  match d with
  | [] => None
  | (k, v) :: rest => if (k =? key)%string then Some v else dict_get rest key
  end.

Definition generate_analysis_prompt (user_query video_type : string)
  : string :=
  let base_prompt :=
    base_prompt_head ++ Py.quote ++ user_query ++ Py.quote
      ++ base_prompt_tail in
  match dict_get type_specific_prompts video_type with
  | Some extra => base_prompt ++ extra
  | None => base_prompt
  end.

(** ** The program *)

Section Program.

Variable env : Env.
Variable cfg : VideoAnalysisConfig.

(** *** Calls to the collaborators *)

Definition os_path_exists (path : string) : M bool :=
  fun h => let b := path_exists env h path in
           Some (Ok b, EvExists path b :: h).

Definition genai_upload_file (path : string) : M File :=
  fun h => let r := upload_file env h path in
           Some (lift r, EvUpload path r :: h).

Definition genai_get_file (name : string) : M File :=
  fun h => let r := get_file env h name in
           Some (lift r, EvGetFile name r :: h).

Definition agent_run_content (prompt : string) (video : File) : M string :=
  fun h => let r := agent_run env h prompt video in
           Some (lift r, EvAgentRun prompt video r :: h).

Definition time_time : M Z :=
  fun h => let t := clock env h in Some (Ok t, EvTime t :: h).

(** [time.sleep] refuses a negative length. *)
Definition time_sleep (secs : Z) : M unit :=
  fun h =>
    if secs <? 0
    then Some (Raise (ValueError "sleep length must be non-negative"), h)
    else Some (Ok tt, EvSleep secs :: h).

(** [tempfile.NamedTemporaryFile(delete=False, suffix=".mp4")]: the
    environment picks the name. *)
Definition named_temporary_file : M string :=
  fun h => let r := temp_file env h in
           Some (lift r, EvTempFile r :: h).

Definition file_write (path data : string) : M unit :=
  fun h => let r := write_file env h path data in
           Some (match r with Some e => Raise e | None => Ok tt end,
                 EvWrite path data r :: h).

(** [Path(path).unlink(missing_ok=True)] *)
Definition path_unlink (path : string) : M unit :=
  fun h => Some (Ok tt, EvUnlink path :: h).

Definition st (d : Display) : M unit :=
  fun h => Some (Ok tt, EvSt d :: h).

(** *** [VideoAnalyzer.process_video] *)

Definition supported (name : string) : bool :=
  Py.endswith_any (Py.lower name) (supported_formats cfg).

Definition process_video (video_file : option UploadedFile) : M string :=
  match video_file with
  | None => raise (ValueError "No video file provided")
  | Some f =>
      if negb (supported (uploaded_name f))
      then raise (ValueError ("Unsupported file format. Please upload: "
                              ++ Py.join ", " (supported_formats cfg)))
      else
        temp_video <- named_temporary_file ;;
        file_write temp_video (uploaded_bytes f) ;;;
        ret temp_video
  end.

(** *** [VideoAnalyzer.analyze_video] *)

Section Analyze.

Variables video_path user_query video_type : string.

(** The inner [while processed_video.state.name == "PROCESSING"] loop;
    [fuel] bounds its iterations. *)
Fixpoint poll (fuel : nat) (start_time : Z) (processed_video : File)
  {struct fuel} : M File :=
  if (file_state_name processed_video =? "PROCESSING")%string then
    match fuel with
    | O => diverge
    | S fuel' =>
        now <- time_time ;;
        if timeout cfg <? now - start_time
        then raise (TimeoutError "Video processing timeout")
        else
          time_sleep (retry_delay cfg) ;;;
          refreshed <- genai_get_file (file_name processed_video) ;;
          poll fuel' start_time refreshed
    end
  else ret processed_video.

(** The body of the [try]: one submit, poll and infer cycle.  It gives
    the [content] and [processing_time] of the returned dictionary. *)
Definition attempt (fuel : nat) : M (string * Z) :=
  processed_video <- genai_upload_file video_path ;;
  start_time <- time_time ;;
  processed_video <- poll fuel start_time processed_video ;;
  let analysis_prompt := generate_analysis_prompt user_query video_type in
  content <- agent_run_content analysis_prompt processed_video ;;
  end_time <- time_time ;;
  ret (content, end_time - start_time).

Definition failure_message (attempts : Z) (last_error : option string)
  : string :=
  "Analysis failed after " ++ Py.str_int attempts
    ++ " attempts. Last error: " ++ Py.str_optional last_error.

(** The [except Exception as e] clause; it gives the new [attempts]
    and [last_error]. *)
Definition on_exception (attempts : Z) (e : exn) : M (Z * option string) :=
  fun h =>
    let attempts := attempts + 1 in
    let last_error := Some (str_exn e) in
    let h := EvCaught (str_exn e) :: h in
    if attempts <? max_retries cfg
    then (time_sleep (retry_delay cfg) ;;; ret (attempts, last_error)) h
    else ret (attempts, last_error) h.

(** The outer [while attempts < self.config.max_retries] loop.  Each
    iteration that does not return adds one to [attempts], so
    [budget], the iterations left, starts at [max_retries]. *)
Fixpoint retry_loop (budget fuel : nat) (attempts : Z)
  (last_error : option string) {struct budget} : M Outcome :=
  if attempts <? max_retries cfg then
    match budget with
    | O => diverge
    | S budget' =>
        fun h =>
          match attempt fuel h with
          | None => None
          | Some (Ok (content, processing_time), h1) =>
              Some (Ok (Success content processing_time), h1)
          | Some (Raise e, h1) =>
              (st' <- on_exception attempts e ;;
               retry_loop budget' fuel (fst st') (snd st')) h1
          end
    end
  else ret (Failure (failure_message attempts last_error)).

Definition analyze_video (fuel : nat) : M Outcome :=
  found <- os_path_exists video_path ;;
  if negb found
  then raise (FileNotFoundError "Video file not found")
  else retry_loop (Z.to_nat (max_retries cfg)) fuel 0 None.

End Analyze.

(** *** [main] *)

(** What the widgets of one run of the page give back. *)
Record Widgets := {
  selected_video_type : string;
  uploaded_video : option UploadedFile;
  typed_query : string;
  button_pressed : bool
}.

Definition is_empty (s : string) : bool :=
  match s with
  | EmptyString => true
  | _ => false
  end.

Definition show_result (result : Outcome) : M unit :=
  match result with
  | Success content processing_time =>
      st (StSuccess processing_time) ;;;
      st (StMarkdown "### Analysis Results") ;;;
      st (StMarkdown content)
  | Failure error => st (StError error)
  end.

(** The body of the outer [try] of [main], from the file uploader on. *)
Definition main_body (w : Widgets) (fuel : nat) : M unit :=
  match uploaded_video w with
  | None => ret tt
  | Some video_file =>
      video_path <- process_video (Some video_file) ;;
      st (StVideo video_path) ;;;
      if button_pressed w then
        if is_empty (typed_query w)
        then st (StWarning "Please enter a question about the video.")
        else
          try_finally
            (try_except
               (result <- analyze_video video_path (typed_query w)
                            (selected_video_type w) fuel ;;
                show_result result)
               (fun e => st (StError ("An error occurred: " ++ str_exn e))))
            (path_unlink video_path)
      else ret tt
  end.

Definition main (w : Widgets) (fuel : nat) : M unit :=
  try_except (main_body w fuel)
    (fun e =>
       st (StError ("Application Error: " ++ str_exn e)) ;;;
       st (StInfo "Please refresh the page and try again. If the error persists, check your API key configuration.")).

End Program.

(** ** What a history shows *)

Local Open Scope list_scope.

Definition is_upload (e : Event) : bool :=
  match e with
  | EvUpload _ _ => true
  | _ => false
  end.

Definition is_caught (e : Event) : bool :=
  match e with
  | EvCaught _ => true
  | _ => false
  end.

(** Submissions to the media upload service recorded in a history. *)
Definition submissions (h : History) : nat :=
  List.length (filter is_upload h).

(** Attempts spent: entries of the handler of [analyze_video]. *)
Definition attempts_spent (h : History) : nat :=
  List.length (filter is_caught h).

Arguments submissions : simpl never.
Arguments attempts_spent : simpl never.

(** The text of the error caught last, if any. *)
Fixpoint last_caught (h : History) : option string :=
  match h with
  | [] => None
  | EvCaught msg :: _ => Some msg
  | _ :: h' => last_caught h'
  end.

(** [h'] is [h] with later calls added. *)
Definition extends (h' h : History) : Prop := exists evs, h' = evs ++ h.

(** ** A scripted environment to run the program on *)

Module Script.

(** A clock that ticks once per recorded call and advances by the
    length of every sleep. *)
Fixpoint wall_clock (h : History) : Z :=
  match h with
  | [] => 0
  | EvSleep secs :: h' => wall_clock h' + 1 + Z.max 0 secs
  | _ :: h' => wall_clock h' + 1
  end.

Definition ready : File :=
  {| file_name := "files/abc"; file_state_name := "ACTIVE" |}.

Definition processing : File :=
  {| file_name := "files/abc"; file_state_name := "PROCESSING" |}.

(** The upload service refuses the first [failures] submissions and
    then accepts; the handle is at once out of PROCESSING. *)
Definition flaky (failures : nat) (answer : string) : Env :=
  {| path_exists := fun _ _ => true;
     upload_file := fun h _ =>
       if (submissions h <? failures)%nat
       then inl (ServiceError "upload refused")
       else inr ready;
     get_file := fun _ _ => inr ready;
     agent_run := fun _ _ _ => inr answer;
     clock := wall_clock;
     temp_file := fun _ => inr "/tmp/tmpvideo.mp4";
     write_file := fun _ _ _ => None |}.

(** Every submission is refused. *)
Definition down : Env :=
  {| path_exists := fun _ _ => true;
     upload_file := fun _ _ => inl (ServiceError "upload refused");
     get_file := fun _ _ => inl (ServiceError "no such file");
     agent_run := fun _ _ _ => inl (ServiceError "agent down");
     clock := wall_clock;
     temp_file := fun _ => inr "/tmp/tmpvideo.mp4";
     write_file := fun _ _ _ => None |}.

(** Submissions are accepted but the handle never leaves PROCESSING. *)
Definition stuck : Env :=
  {| path_exists := fun _ _ => true;
     upload_file := fun _ _ => inr processing;
     get_file := fun _ _ => inr processing;
     agent_run := fun _ _ _ => inr "unreached";
     clock := wall_clock;
     temp_file := fun _ => inr "/tmp/tmpvideo.mp4";
     write_file := fun _ _ _ => None |}.

Definition config (retries delay limit : Z) : VideoAnalysisConfig :=
  {| supported_formats := ["mp4"; "mov"; "avi"];
     max_retries := retries;
     retry_delay := delay;
     timeout := limit |}.

End Script.

(** ** Shapes of histories used in the statements *)

(** The calls polling makes: clock readings, sleeps and refreshes. *)
Definition is_poll_event (e : Event) : bool :=
  match e with
  | EvTime _ | EvSleep _ | EvGetFile _ _ => true
  | _ => false
  end.

(** Calls that are neither a submission nor a spent attempt. *)
Definition is_quiet (e : Event) : bool :=
  negb (is_upload e) && negb (is_caught e).

Section Shapes.

Variable env : Env.
Variable cfg : VideoAnalysisConfig.
Variables video_path user_query video_type : string.

(** The events of a successful attempt, newest first: the clock reading
    of the returned dictionary, the inference call, the calls of the
    polling loop, and the reading of [start_time]. *)
Definition success_events (content : string) (pv' : File) (mid : list Event)
  (t0 t1 : Z) : list Event :=
  EvTime t1
  :: EvAgentRun (generate_analysis_prompt user_query video_type) pv'
       (inr content)
  :: mid ++ [EvTime t0].

(** What a finished run of the loop looks like.  Exhaustion: one
    submission and one spent attempt per remaining iteration, and the
    message built from the final counter and the error caught last.
    Success: [k] failed attempts, each with its submission, lie in [hb],
    and the events of the successful attempt follow.  An exception leaves
    the loop only from the handler's sleep, when the delay is
    negative. *)
Definition loop_post (attempts : Z) (last_error : option string)
  (h : History) (r : Res Outcome) (h' : History) : Prop :=
  match r with
  | Ok (Failure msg) =>
      let n := Z.to_nat (max_retries cfg - attempts) in
      submissions h' = (submissions h + n)%nat /\
      attempts_spent h' = (attempts_spent h + n)%nat /\
      msg = failure_message (Z.max attempts (max_retries cfg))
              (if attempts <? max_retries cfg
               then last_caught h' else last_error)
  | Ok (Success content processing_time) =>
      exists (k : nat) hb pv pv' mid t0 t1,
        Z.of_nat k < max_retries cfg - attempts /\
        extends hb h /\
        attempts_spent hb = (attempts_spent h + k)%nat /\
        submissions hb = (submissions h + k)%nat /\
        upload_file env hb video_path = inr pv /\
        h' = success_events content pv' mid t0 t1
             ++ EvUpload video_path (inr pv) :: hb /\
        forallb is_poll_event mid = true /\
        t0 = clock env (EvUpload video_path (inr pv) :: hb) /\
        t1 = clock env
               (EvAgentRun (generate_analysis_prompt user_query video_type)
                  pv' (inr content)
                :: mid ++ EvTime t0 :: EvUpload video_path (inr pv) :: hb) /\
        processing_time = t1 - t0
  | Raise e =>
      retry_delay cfg < 0 /\
      e = ValueError "sleep length must be non-negative"
  end.

(** What one call of [analyze_video] on an existing path adds to the
    history, for each way it can end. *)
Definition call_post (h0 : History) (r : Res Outcome) (evs : list Event)
  : Prop :=
  match r with
  | Ok (Failure msg) =>
      let n := Z.to_nat (max_retries cfg) in
      submissions evs = n /\
      attempts_spent evs = n /\
      msg = failure_message (Z.of_nat n) (last_caught evs)
  | Ok (Success content processing_time) =>
      exists (k : nat) before pv pv' mid t0 t1,
        Z.of_nat k < max_retries cfg /\
        attempts_spent before = k /\
        submissions before = k /\
        upload_file env (before ++ h0) video_path = inr pv /\
        evs = success_events content pv' mid t0 t1
              ++ EvUpload video_path (inr pv) :: before /\
        forallb is_poll_event mid = true /\
        t0 = clock env (EvUpload video_path (inr pv) :: before ++ h0) /\
        t1 = clock env
               (EvAgentRun (generate_analysis_prompt user_query video_type)
                  pv' (inr content)
                :: mid ++ EvTime t0
                :: EvUpload video_path (inr pv) :: before ++ h0) /\
        processing_time = t1 - t0
  | Raise e =>
      retry_delay cfg < 0 /\
      e = ValueError "sleep length must be non-negative"
  end.

End Shapes.

(** The clock never runs backwards, and a sleep of [secs] moves it on by
    at least [secs]. *)
Definition clock_advances (env : Env) : Prop :=
  forall e h,
    clock env h + match e with EvSleep secs => secs | _ => 0 end
    <= clock env (e :: h).

(** The clock never runs backwards. *)
Definition clock_monotone (env : Env) : Prop :=
  forall e h, clock env h <= clock env (e :: h).

(** A reading of the clock does not set it back, and one round of the
    polling loop, that is a reading, the sleep and the refresh of the
    handle, moves the clock on by at least one unit. *)
Definition polling_advances (env : Env) (cfg : VideoAnalysisConfig) : Prop :=
  (forall t h, clock env h <= clock env (EvTime t :: h)) /\
  (forall name r t h,
     clock env h + 1
     <= clock env
          (EvGetFile name r :: EvSleep (retry_delay cfg) :: EvTime t :: h)).


(** The run of the retry loop up to its first successful attempt: after
    [failures] attempts that raise, each followed by the handler, the next
    attempt returns.  It gives the [content] and [processing_time] of that
    attempt and the history it ends with. *)
Fixpoint first_success (env : Env) (cfg : VideoAnalysisConfig)
  (video_path user_query video_type : string) (fuel failures : nat)
  (attempts : Z) (h : History) : option (string * Z * History) :=
  match failures with
  | O =>
      match attempt env cfg video_path user_query video_type fuel h with
      | Some (Ok result, h') => Some (result, h')
      | _ => None
      end
  | S failures' =>
      match attempt env cfg video_path user_query video_type fuel h with
      | Some (Raise e, h1) =>
          match on_exception cfg attempts e h1 with
          | Some (Ok st', h2) =>
              first_success env cfg video_path user_query video_type fuel
                failures' (fst st') h2
          | _ => None
          end
      | _ => None
      end
  end.

(** *** Handles in flight *)

Definition File_eqb (a b : File) : bool :=
  (file_name a =? file_name b)%string
  && (file_state_name a =? file_state_name b)%string.

Definition handle_of (r : exn + File) : option File :=
  match r with
  | inr f => Some f
  | inl _ => None
  end.

(** The discipline of handles, one event at a time.  [cur] is the handle
    in flight, if any; the result is [None] when the event breaks the
    discipline: a submission while a handle is in flight, or a refresh or
    an inference on anything but the handle in flight.  A caught error
    ends the attempt and drops its handle, and so does the inference
    call. *)
Definition handle_step (cur : option File) (e : Event)
  : option (option File) :=
  match e with
  | EvUpload _ r =>
      match cur with
      | None => Some (handle_of r)
      | Some _ => None
      end
  | EvGetFile name r =>
      match cur with
      | Some f =>
          if (file_name f =? name)%string then Some (handle_of r) else None
      | None => None
      end
  | EvAgentRun _ video _ =>
      match cur with
      | Some f => if File_eqb f video then Some None else None
      | None => None
      end
  | EvCaught _ => Some None
  | _ => Some cur
  end.

(** The handle in flight after a history, oldest event first; [None] when
    the history breaks the discipline. *)
Fixpoint in_flight (h : History) : option (option File) :=
  match h with
  | [] => Some None
  | e :: h' =>
      match in_flight h' with
      | Some cur => handle_step cur e
      | None => None
      end
  end.

(** *** Staged files *)

Fixpoint remove_path (p : string) (l : list string) : list string :=
  match l with
  | [] => []
  | q :: l' =>
      if (p =? q)%string then remove_path p l' else q :: remove_path p l'
  end.

(** The temporary files a history has created and not unlinked. *)
Fixpoint staged (h : History) : list string :=
  match h with
  | [] => []
  | EvTempFile (inr p) :: h' => p :: staged h'
  | EvUnlink p :: h' => remove_path p (staged h')
  | _ :: h' => staged h'
  end.

(** *** Further counts on histories *)

Definition is_refresh (e : Event) : bool :=
  match e with
  | EvGetFile _ _ => true
  | _ => false
  end.

Definition is_inference (e : Event) : bool :=
  match e with
  | EvAgentRun _ _ _ => true
  | _ => false
  end.

(** Refreshes of a handle ([genai.get_file]) recorded in a history. *)
Definition refreshes (h : History) : nat := List.length (filter is_refresh h).

(** Calls of the inference agent recorded in a history. *)
Definition inferences (h : History) : nat :=
  List.length (filter is_inference h).

Arguments refreshes : simpl never.
Arguments inferences : simpl never.

(** The time spent in [time.sleep] along a history. *)
Fixpoint slept (h : History) : Z :=
  match h with
  | [] => 0
  | EvSleep secs :: h' => secs + slept h'
  | _ :: h' => slept h'
  end.

(** What [main] shows after the analysis, newest first, for each way
    [analyze_video] can end. *)
Definition shown (r : Res Outcome) : list Event :=
  match r with
  | Ok (Success content processing_time) =>
      [EvSt (StMarkdown content);
       EvSt (StMarkdown "### Analysis Results");
       EvSt (StSuccess processing_time)]
  | Ok (Failure error) => [EvSt (StError error)]
  | Raise e => [EvSt (StError ("An error occurred: " ++ str_exn e)%string)]
  end.

(** An upper-case ASCII letter occurs in the string. *)
Fixpoint has_upper (s : string) : bool :=
  match s with
  | EmptyString => false
  | String c s' =>
      ((65 <=? nat_of_ascii c) && (nat_of_ascii c <=? 90))%nat || has_upper s'
  end.

(** *** More scripted environments *)

Module Faults.

Definition failed : File :=
  {| file_name := "files/abc"; file_state_name := "FAILED" |}.

(** The upload service reports the remote processing as failed; the agent
    answers all the same. *)
Definition failed_state : Env :=
  {| path_exists := fun _ _ => true;
     upload_file := fun _ _ => inr failed;
     get_file := fun _ _ => inr failed;
     agent_run := fun _ _ _ => inr "OK";
     clock := Script.wall_clock;
     temp_file := fun _ => inr "/tmp/tmpvideo.mp4";
     write_file := fun _ _ _ => None |}.

(** Submissions are accepted and ready at once; the agent raises. *)
Definition agent_down : Env :=
  {| path_exists := fun _ _ => true;
     upload_file := fun _ _ => inr Script.ready;
     get_file := fun _ _ => inr Script.ready;
     agent_run := fun _ _ _ => inl (ServiceError "agent down");
     clock := Script.wall_clock;
     temp_file := fun _ => inr "/tmp/tmpvideo.mp4";
     write_file := fun _ _ _ => None |}.

(** The temporary file is created but cannot be written. *)
Definition disk_full : Env :=
  {| path_exists := fun _ _ => true;
     upload_file := fun _ _ => inr Script.ready;
     get_file := fun _ _ => inr Script.ready;
     agent_run := fun _ _ _ => inr "OK";
     clock := Script.wall_clock;
     temp_file := fun _ => inr "/tmp/tmpvideo.mp4";
     write_file := fun _ _ _ => Some (ServiceError "No space left on device") |}.

(** The staged file is gone when the analysis starts. *)
Definition vanished : Env :=
  {| path_exists := fun _ _ => false;
     upload_file := fun _ _ => inr Script.ready;
     get_file := fun _ _ => inr Script.ready;
     agent_run := fun _ _ _ => inr "OK";
     clock := Script.wall_clock;
     temp_file := fun _ => inr "/tmp/tmpvideo.mp4";
     write_file := fun _ _ _ => None |}.

Definition clip : UploadedFile :=
  {| uploaded_name := "clip.mp4"; uploaded_bytes := "abc" |}.

End Faults.

(** ** The stock analysis script, [financial_agent.py] *)

Module Finance.

(** The model object: [Groq(api_key=..., id=..., temperature=...)]. *)
Record Groq := {
  api_key : string;
  id : string;
  temperature : QArith_base.Q
}.

Inductive Tool :=
| DuckDuckGo
| YFinanceTools (stock_price analyst_recommendations stock_fundamentals : bool).

(** An [Agent] with the keyword arguments the script uses; an argument
    left out is [None] or the empty list. *)
#[warnings="-register-all"]
Inductive Agent :=
| MkAgent (name : option string) (model : Groq) (tools : list Tool)
    (team : list Agent) (instructions : list string)
    (show_tool_calls markdown : bool).

(** An object under construction. *)
Inductive Obj :=
| OGroq (m : Groq)
| OTool (t : Tool)
| OAgent (a : Agent).

(** One entry of the script's history: a constructor call or a call of
    [agent.print_response] with the exception it raised, if any, a
    [logging.error] record, or a printed line. *)
Inductive Event :=
| EvNew (o : Obj) (r : option exn)
| EvPrintResponse (agent : Agent) (prompt : string) (stream : bool)
    (r : option exn)
| EvLogError (msg : string)
| EvPrint (msg : string).

(** The vendor library: which calls raise, after a given history. *)
Record Env := {
  construct : list Event -> Obj -> option exn;
  print_response : list Event -> Agent -> string -> bool -> option exn
}.

(** The monad of the script: history and exceptions; the script has no
    loop. *)
Definition FM (A : Type) := list Event -> Res A * list Event.

Definition ret {A} (a : A) : FM A := fun h => (Ok a, h).
Definition raise {A} (e : exn) : FM A := fun h => (Raise e, h).

Definition bind {A B} (m : FM A) (k : A -> FM B) : FM B :=
  fun h =>
    match m h with
    | (Raise e, h1) => (Raise e, h1)
    | (Ok a, h1) => k a h1
    end.

Definition try_except {A} (m : FM A) (handler : exn -> FM A) : FM A :=
  fun h =>
    match m h with
    | (Raise e, h1) => handler e h1
    | (Ok a, h1) => (Ok a, h1)
    end.

Notation "x <~ m ;; k" := (bind m (fun x => k))
  (at level 61, m at next level, right associativity).
Notation "m ~~ k" := (bind m (fun _ => k))
  (at level 61, right associativity).

Definition stock_prompt_head : string :=
  "
    Provide a comprehensive analysis of ".

Definition stock_prompt_tail : string :=
  " including:
    1. Current analyst recommendations and price targets
   Present the information in a clear, organized format using tables where appropriate.
    ".

Definition groq_model_of (groq_api_key : string) : Groq :=
  {| api_key := groq_api_key;
     id := "llama-3.3-70b-versatile";
     temperature := QArith_base.Qmake 7 10 |}.

Definition web_agent_of (groq_model : Groq) : Agent :=
  MkAgent (Some "web_agent") groq_model [DuckDuckGo] []
    ["Search for relevant news and information";
     "Focus on reliable sources";
     "Provide source attribution"]
    true true.

Definition yfinance_tools : Tool := YFinanceTools true true true.

Definition finance_agent_of (groq_model : Groq) : Agent :=
  MkAgent (Some "finance_agent") groq_model [yfinance_tools] []
    ["Analyze financial metrics and market data";
     "Present data in table format when possible";
     "Include key performance indicators"]
    true true.

Definition multi_agent_of (groq_model : Groq) : Agent :=
  MkAgent None groq_model []
    [web_agent_of groq_model; finance_agent_of groq_model]
    ["Combine financial data with news analysis";
     "Present information in a clear, organized format";
     "Highlight key insights and trends"]
    true true.

Section Run.

Variable env : Env.

Definition new (o : Obj) : FM unit :=
  fun h =>
    let r := construct env h o in
    (match r with Some e => Raise e | None => Ok tt end, EvNew o r :: h).

Definition agent_print_response (agent : Agent) (prompt : string)
  (stream : bool) : FM unit :=
  fun h =>
    let r := print_response env h agent prompt stream in
    (match r with Some e => Raise e | None => Ok tt end,
     EvPrintResponse agent prompt stream r :: h).

Definition logging_error (msg : string) : FM unit :=
  fun h => (Ok tt, EvLogError msg :: h).

Definition print (msg : string) : FM unit :=
  fun h => (Ok tt, EvPrint msg :: h).

(** The constructors run in the order Python evaluates them: the model,
    then for each agent its tools and the agent itself. *)
Definition setup_groq_agent (groq_api_key : string) : FM Agent :=
  try_except
    (let groq_model := groq_model_of groq_api_key in
     new (OGroq groq_model) ~~
     new (OTool DuckDuckGo) ~~
     new (OAgent (web_agent_of groq_model)) ~~
     new (OTool yfinance_tools) ~~
     new (OAgent (finance_agent_of groq_model)) ~~
     new (OAgent (multi_agent_of groq_model)) ~~
     ret (multi_agent_of groq_model))
    (fun e =>
       logging_error ("Failed to create agent: " ++ str_exn e)%string ~~
       raise e).

Definition analyze_stock (agent : Agent) (symbol : string) : FM unit :=
  let prompt := (stock_prompt_head ++ symbol ++ stock_prompt_tail)%string in
  agent_print_response agent prompt true.

(** The body under [if __name__ == "__main__"]; the key literal of the
    source is the parameter. *)
Definition script (GROQ_API_KEY : string) : FM unit :=
  try_except
    (agent <~ setup_groq_agent GROQ_API_KEY ;;
     analyze_stock agent "TSLA")
    (fun e =>
       print ("Error setting up or running agent: " ++ str_exn e)%string).

End Run.

(** The objects [setup_groq_agent] constructs, in order. *)
Definition constructions (groq_api_key : string) : list Obj :=
  let groq_model := groq_model_of groq_api_key in
  [OGroq groq_model;
   OTool DuckDuckGo;
   OAgent (web_agent_of groq_model);
   OTool yfinance_tools;
   OAgent (finance_agent_of groq_model);
   OAgent (multi_agent_of groq_model)].

(** The history of constructions that all went through, newest first. *)
Definition constructed (objs : list Obj) : list Event :=
  rev (map (fun o => EvNew o None) objs).

Definition is_print (e : Event) : bool :=
  match e with
  | EvPrint _ => true
  | _ => false
  end.

Definition count (p : Event -> bool) (h : list Event) : nat :=
  List.length (filter p h).

Definition is_log (e : Event) : bool :=
  match e with
  | EvLogError _ => true
  | _ => false
  end.

Definition is_print_response (e : Event) : bool :=
  match e with
  | EvPrintResponse _ _ _ _ => true
  | _ => false
  end.

(** A library in which the constructor of the finance tools fails. *)
Definition no_yfinance : Env :=
  {| construct := fun _ o =>
       match o with
       | OTool (YFinanceTools _ _ _) => Some (ServiceError "yfinance missing")
       | _ => None
       end;
     print_response := fun _ _ _ _ => None |}.

End Finance.

(** ** Stepping the monad *)

Lemma bind_ok {A B} (m : M A) (k : A -> M B) h a h1 :
  m h = Some (Ok a, h1) -> bind m k h = k a h1.
Proof. unfold bind; intros ->; reflexivity. Qed.

Lemma bind_raise {A B} (m : M A) (k : A -> M B) h e h1 :
  m h = Some (Raise e, h1) -> bind m k h = Some (Raise e, h1).
Proof. unfold bind; intros ->; reflexivity. Qed.

Lemma bind_none {A B} (m : M A) (k : A -> M B) h :
  m h = None -> bind m k h = None.
Proof. unfold bind; intros ->; reflexivity. Qed.

(** A bind that ends came from a first part that ended. *)
Lemma bind_inv {A B} (m : M A) (k : A -> M B) h r h' :
  bind m k h = Some (r, h') ->
  (exists e, m h = Some (Raise e, h') /\ r = Raise e) \/
  (exists a h1, m h = Some (Ok a, h1) /\ k a h1 = Some (r, h')).
Proof.
  unfold bind; destruct (m h) as [[[a|e] h1]|]; intros H.
  - right; eauto.
  - left; inversion H; subst; eauto.
  - discriminate.
Qed.

Lemma extends_refl h : extends h h.
Proof. exists []; reflexivity. Qed.

Lemma extends_cons e h' h : extends h' h -> extends (e :: h') h.
Proof. intros [evs ->]; exists (e :: evs); reflexivity. Qed.

Lemma extends_trans h2 h1 h : extends h2 h1 -> extends h1 h -> extends h2 h.
Proof.
  intros [e2 ->] [e1 ->]; exists (e2 ++ e1)%list; now rewrite app_assoc.
Qed.

Lemma submissions_cons e h :
  submissions (e :: h) = ((if is_upload e then 1 else 0) + submissions h)%nat.
Proof. unfold submissions; simpl; destruct (is_upload e); reflexivity. Qed.

Lemma attempts_spent_cons e h :
  attempts_spent (e :: h)
  = ((if is_caught e then 1 else 0) + attempts_spent h)%nat.
Proof. unfold attempts_spent; simpl; destruct (is_caught e); reflexivity. Qed.

(** ** The polling loop *)


Lemma poll_events_quiet evs h :
  forallb is_poll_event evs = true ->
  submissions (evs ++ h) = submissions h /\
  attempts_spent (evs ++ h) = attempts_spent h /\
  last_caught (evs ++ h) = last_caught h.
Proof.
  induction evs as [|e evs IH]; simpl; [auto|].
  intros H; apply andb_prop in H as [He Hevs].
  destruct (IH Hevs) as (IH1 & IH2 & IH3).
  rewrite submissions_cons, attempts_spent_cons, IH1, IH2.
  destruct e; simpl in *; try discriminate; auto.
Qed.

Section PollFacts.

Variable env : Env.
Variable cfg : VideoAnalysisConfig.

Lemma time_sleep_inv secs h r h' :
  time_sleep secs h = Some (r, h') ->
  (secs < 0 /\ h' = h /\
   r = Raise (ValueError "sleep length must be non-negative")) \/
  (0 <= secs /\ h' = EvSleep secs :: h /\ r = Ok tt).
Proof.
  unfold time_sleep; destruct (Z.ltb_spec secs 0) as [Hneg|Hpos];
    intros E; inversion E; subst; [left|right]; auto.
Qed.

(** Polling only reads the clock, sleeps and refreshes; when it gives a
    handle back, that handle has left PROCESSING. *)
Lemma poll_inv fuel : forall start pv h r h',
  poll env cfg fuel start pv h = Some (r, h') ->
  exists evs, h' = (evs ++ h)%list /\ forallb is_poll_event evs = true /\
    match r with
    | Ok pv' => (file_state_name pv' =? "PROCESSING")%string = false
    | Raise _ => True
    end.
Proof.
  induction fuel as [|fuel IH]; intros start pv h r h'; simpl;
    destruct (file_state_name pv =? "PROCESSING")%string eqn:Est;
    try discriminate;
    try (intros H; inversion H; subst; exists []; simpl; auto; fail).
  unfold bind at 1, time_time at 1.
  destruct (timeout cfg <? clock env h - start).
  - intros H; inversion H; subst.
    exists [EvTime (clock env h)]; simpl; auto.
  - intros H. apply bind_inv in H as [(e & Hs & ->)|(u & h1 & Hs & H1)].
    + apply time_sleep_inv in Hs as [(_ & -> & _)|(_ & _ & Hr)];
        [|discriminate].
      exists [EvTime (clock env h)]; simpl; auto.
    + apply time_sleep_inv in Hs as [(_ & _ & Hr)|(_ & -> & _)];
        [discriminate|].
      apply bind_inv in H1 as [(e & Hg & ->)|(pv1 & h2 & Hg & H2)].
      * unfold genai_get_file in Hg; inversion Hg; subst.
        eexists [_; _; _]; simpl; split; [reflexivity|auto].
      * unfold genai_get_file in Hg; inversion Hg; subst.
        apply IH in H2 as (evs & -> & Hq & Hr).
        exists (evs ++ [EvGetFile (file_name pv) (get_file env
                 (EvSleep (retry_delay cfg) :: EvTime (clock env h) :: h)
                 (file_name pv)); EvSleep (retry_delay cfg);
                 EvTime (clock env h)])%list.
        rewrite <- app_assoc; split; [reflexivity|].
        rewrite forallb_app, Hq; simpl; auto.
Qed.

End PollFacts.

(** ** One attempt, and the retry loop *)


Lemma poll_event_quiet e : is_poll_event e = true -> is_quiet e = true.
Proof. destruct e; simpl; auto; discriminate. Qed.

Lemma quiet_events evs h :
  forallb is_quiet evs = true ->
  submissions (evs ++ h) = submissions h /\
  attempts_spent (evs ++ h) = attempts_spent h /\
  last_caught (evs ++ h) = last_caught h.
Proof.
  induction evs as [|e evs IH]; simpl; [auto|].
  intros H; apply andb_prop in H as [He Hevs].
  destruct (IH Hevs) as (IH1 & IH2 & IH3).
  rewrite submissions_cons, attempts_spent_cons, IH1, IH2.
  destruct e; simpl in *; try discriminate; auto.
Qed.

Lemma forallb_impl {A} (p q : A -> bool) (l : list A) :
  (forall x, p x = true -> q x = true) ->
  forallb p l = true -> forallb q l = true.
Proof.
  intros Hpq; induction l as [|x l IH]; simpl; [auto|].
  intros H; apply andb_prop in H as [Hx Hl].
  now rewrite (Hpq _ Hx), (IH Hl).
Qed.

Section LoopFacts.

Variable env : Env.
Variable cfg : VideoAnalysisConfig.
Variables video_path user_query video_type : string.

Let prompt := generate_analysis_prompt user_query video_type.


(** Every attempt begins with one submission of [video_path] and makes
    no other; a successful one has the shape of [success_events], and
    its [processing_time] is the difference of the two readings. *)
Lemma attempt_inv fuel h r h' :
  attempt env cfg video_path user_query video_type fuel h = Some (r, h') ->
  exists evs,
    h' = evs ++ EvUpload video_path (upload_file env h video_path) :: h /\
    forallb is_quiet evs = true /\
    match r with
    | Ok (content, processing_time) =>
        exists pv pv' mid t0 t1,
          upload_file env h video_path = inr pv /\
          evs = success_events user_query video_type content pv' mid t0 t1 /\
          forallb is_poll_event mid = true /\
          t0 = clock env (EvUpload video_path (inr pv) :: h) /\
          t1 = clock env (EvAgentRun prompt pv' (inr content) :: mid
                          ++ EvTime t0 :: EvUpload video_path (inr pv) :: h) /\
          processing_time = t1 - t0
    | Raise _ => True
    end.
Proof.
  unfold attempt; intros H.
  apply bind_inv in H as [(e & Hu & ->)|(pv & h1 & Hu & H)];
    unfold genai_upload_file in Hu; inversion Hu as [[Hl Hh]]; subst; clear Hu.
  { exists []; simpl; auto. }
  destruct (upload_file env h video_path) as [e|pv0] eqn:Eup;
    simpl in Hl; inversion Hl; subst; clear Hl.
  apply bind_inv in H as [(e & Ht & ->)|(t0 & h2 & Ht & H)];
    unfold time_time in Ht; inversion Ht; subst; clear Ht.
  apply bind_inv in H as [(e & Hp & ->)|(pv' & h3 & Hp & H)];
    apply poll_inv in Hp as (mid & -> & Hmid & Hst).
  { exists (mid ++ [EvTime (clock env (EvUpload video_path (inr pv) :: h))]).
    rewrite <- app_assoc; split; [reflexivity|split; [|exact I]].
    rewrite forallb_app; simpl.
    now rewrite (forallb_impl _ _ _ poll_event_quiet Hmid). }
  apply bind_inv in H as [(e & Ha & ->)|(content & h4 & Ha & H)];
    unfold agent_run_content in Ha; inversion Ha as [[Hl Hh]]; subst; clear Ha.
  { eexists (_ :: mid ++ [EvTime _]).
    simpl; rewrite <- app_assoc; split; [reflexivity|split; [|exact I]].
    rewrite forallb_app; simpl.
    now rewrite (forallb_impl _ _ _ poll_event_quiet Hmid). }
  fold prompt in Hl, H.
  destruct (agent_run env _ prompt pv') as [e|c] eqn:Eag;
    simpl in Hl; inversion Hl; subst; clear Hl.
  apply bind_inv in H as [(e & Ht & ->)|(t1 & h5 & Ht & H)];
    unfold time_time in Ht; inversion Ht; subst; clear Ht.
  unfold ret in H; inversion H; subst; clear H.
  eexists (success_events user_query video_type content pv' mid _ _).
  unfold success_events.
  simpl; rewrite <- app_assoc; simpl; split; [reflexivity|split].
  - rewrite forallb_app; simpl.
    now rewrite (forallb_impl _ _ _ poll_event_quiet Hmid).
  - exists pv, pv', mid; do 2 eexists.
    split; [reflexivity|split; [reflexivity|split; [exact Hmid|]]].
    split; [reflexivity|split; reflexivity].
Qed.

Lemma attempt_counts fuel h r h' :
  attempt env cfg video_path user_query video_type fuel h = Some (r, h') ->
  submissions h' = S (submissions h) /\
  attempts_spent h' = attempts_spent h /\
  last_caught h' = last_caught h /\
  extends h' h.
Proof.
  intros H; apply attempt_inv in H as (evs & -> & Hq & _).
  destruct (quiet_events evs
              (EvUpload video_path (upload_file env h video_path) :: h) Hq)
    as (-> & -> & ->).
  rewrite submissions_cons, attempts_spent_cons; simpl.
  repeat split; auto.
  exists (evs ++ [EvUpload video_path (upload_file env h video_path)]).
  now rewrite <- app_assoc.
Qed.

(** What the handler does, in both of its branches. *)
Lemma on_exception_inv attempts e h r h' :
  on_exception cfg attempts e h = Some (r, h') ->
  (attempts + 1 < max_retries cfg /\ retry_delay cfg < 0 /\
   r = Raise (ValueError "sleep length must be non-negative") /\
   h' = EvCaught (str_exn e) :: h) \/
  (r = Ok (attempts + 1, Some (str_exn e)) /\
   h' = (if attempts + 1 <? max_retries cfg
         then [EvSleep (retry_delay cfg)] else [])
        ++ EvCaught (str_exn e) :: h /\
   (attempts + 1 < max_retries cfg -> 0 <= retry_delay cfg)).
Proof.
  unfold on_exception.
  destruct (Z.ltb_spec (attempts + 1) (max_retries cfg)) as [Hlt|Hge].
  - intros H; apply bind_inv in H as [(x & Hs & ->)|(u & h1 & Hs & H)];
      apply time_sleep_inv in Hs as [(Hneg & -> & Hr)|(Hpos & -> & Hr)];
      try discriminate.
    + left; inversion Hr; auto.
    + right; unfold ret in H; inversion H; subst; simpl; auto.
  - unfold ret; intros H; inversion H; subst; right; simpl.
    repeat split; auto; lia.
Qed.

Lemma retry_loop_done budget fuel attempts last_error h :
  max_retries cfg <= attempts ->
  retry_loop env cfg video_path user_query video_type budget fuel attempts
    last_error h
  = Some (Ok (Failure (failure_message attempts last_error)), h).
Proof.
  intros Hge; destruct budget; simpl;
    destruct (Z.ltb_spec attempts (max_retries cfg)); try lia; reflexivity.
Qed.

(** One iteration of the loop whose attempt raised [e]. *)
Lemma retry_loop_step budget fuel attempts last_error h e h1 :
  attempts < max_retries cfg ->
  attempt env cfg video_path user_query video_type fuel h
    = Some (Raise e, h1) ->
  retry_loop env cfg video_path user_query video_type (S budget) fuel
    attempts last_error h
  = (st' <- on_exception cfg attempts e ;;
     retry_loop env cfg video_path user_query video_type budget fuel
       (fst st') (snd st')) h1.
Proof.
  intros Hlt Ha; simpl.
  destruct (Z.ltb_spec attempts (max_retries cfg)); [|lia].
  now rewrite Ha.
Qed.

End LoopFacts.

Lemma handler_events (sleeps : bool) secs msg h :
  let h2 := (if sleeps then [EvSleep secs] else []) ++ EvCaught msg :: h in
  submissions h2 = submissions h /\
  attempts_spent h2 = S (attempts_spent h) /\
  last_caught h2 = Some msg /\
  extends h2 h.
Proof.
  destruct sleeps; simpl;
    rewrite ?submissions_cons, ?attempts_spent_cons; simpl;
    repeat split; auto.
  - exists [EvSleep secs; EvCaught msg]; reflexivity.
  - exists [EvCaught msg]; reflexivity.
Qed.

Section LoopInvariant.

Variable env : Env.
Variable cfg : VideoAnalysisConfig.
Variables video_path user_query video_type : string.

Let loop := retry_loop env cfg video_path user_query video_type.


Lemma retry_loop_inv budget fuel : forall attempts last_error h r h',
  loop budget fuel attempts last_error h = Some (r, h') ->
  extends h' h /\
  loop_post env cfg video_path user_query video_type attempts last_error
    h r h'.
Proof.
  subst loop.
  induction budget as [|budget IH]; intros a le h r h' H.
  - simpl in H. destruct (Z.ltb_spec a (max_retries cfg)); [discriminate|].
    inversion H; subst; split; [apply extends_refl|]; simpl.
    replace (Z.to_nat (max_retries cfg - a)) with 0%nat by lia.
    destruct (Z.ltb_spec a (max_retries cfg)); [lia|].
    rewrite !Nat.add_0_r, Z.max_l by lia; auto.
  - destruct (Z.ltb_spec a (max_retries cfg)) as [Hlt|Hge].
    2:{ rewrite retry_loop_done in H by lia.
        inversion H; subst; split; [apply extends_refl|]; simpl.
        replace (Z.to_nat (max_retries cfg - a)) with 0%nat by lia.
        destruct (Z.ltb_spec a (max_retries cfg)); [lia|].
        rewrite !Nat.add_0_r, Z.max_l by lia; auto. }
    destruct (attempt env cfg video_path user_query video_type fuel h)
      as [[[[c pt]|e] h1]|] eqn:Ea.
    + (* the attempt succeeded *)
      simpl in H. destruct (Z.ltb_spec a (max_retries cfg)); [|lia].
      rewrite Ea in H; inversion H; subst; clear H.
      destruct (attempt_counts _ _ _ _ _ _ _ _ _ Ea) as (_ & _ & _ & Hext).
      split; [exact Hext|].
      apply attempt_inv in Ea as (evs & -> & _ & pv & pv' & mid & t0 & t1
                                  & Eup & -> & Hmid & Ht0 & Ht1 & Hpt).
      rewrite Eup. exists 0%nat, h, pv, pv', mid, t0, t1.
      split; [lia|]. split; [apply extends_refl|].
      split; [lia|]. split; [lia|]. split; [exact Eup|].
      repeat (split; [first [reflexivity | assumption]|]).
      assumption.
    + (* the attempt raised [e] *)
      rewrite (retry_loop_step _ _ _ _ _ _ _ _ _ _ _ _ Hlt Ea) in H.
      destruct (attempt_counts _ _ _ _ _ _ _ _ _ Ea)
        as (Hsub & Hsp & _ & Hext).
      apply bind_inv in H as [(x & Hh & ->)|(st' & h2 & Hh & H)];
        apply on_exception_inv in Hh
          as [(_ & Hneg & Hr & ->)|(Hr & -> & Hdelay)]; try discriminate.
      * inversion Hr; subst. split; [|split; auto].
        apply extends_cons; exact Hext.
      * inversion Hr; subst; clear Hr; simpl fst in H; simpl snd in H.
        pose proof (handler_events (a + 1 <? max_retries cfg)
                      (retry_delay cfg) (str_exn e) h1) as Hev.
        simpl in Hev; destruct Hev as (Hs2 & Hp2 & Hl2 & Hx2).
        set (h2 := (if a + 1 <? max_retries cfg
                    then [EvSleep (retry_delay cfg)] else [])
                   ++ EvCaught (str_exn e) :: h1) in *.
        assert (Hh2 : extends h2 h) by (eapply extends_trans; eauto).
        destruct (Z.ltb_spec (a + 1) (max_retries cfg)) as [Hlt1|Hge1].
        -- apply IH in H as (Hx & Hpost).
           split; [eapply extends_trans; eauto|].
           destruct r as [[c pt|msg]|x]; unfold loop_post in *.
           ++ destruct Hpost as (k & hb & pv & pv' & mid & t0 & t1 & Hk
                                 & Hxb & Hspb & Hsb & Hrest).
              exists (S k), hb, pv, pv', mid, t0, t1.
              split; [lia|]. split; [eapply extends_trans; eauto|].
              split; [lia|]. split; [lia|]. exact Hrest.
           ++ destruct (Z.ltb_spec (a + 1) (max_retries cfg)); [|lia].
              destruct (Z.ltb_spec a (max_retries cfg)); [|lia].
              destruct Hpost as (Hs & Hp & ->).
              split; [lia|]. split; [lia|].
              now rewrite !Z.max_r by lia.
           ++ exact Hpost.
        -- rewrite retry_loop_done in H by lia.
           inversion H; subst; clear H.
           split; [exact Hh2|]. simpl.
           destruct (Z.ltb_spec a (max_retries cfg)); [|lia].
           replace (Z.to_nat (max_retries cfg - a)) with 1%nat by lia.
           split; [lia|]. split; [lia|].
           rewrite Z.max_r by lia.
           f_equal; lia.
    + simpl in H. destruct (Z.ltb_spec a (max_retries cfg)); [|lia].
      rewrite Ea in H; discriminate.
Qed.

End LoopInvariant.

(** ** The events of one call *)

Lemma submissions_app evs h :
  submissions (evs ++ h) = (submissions evs + submissions h)%nat.
Proof. unfold submissions; now rewrite filter_app, length_app. Qed.

Lemma attempts_spent_app evs h :
  attempts_spent (evs ++ h) = (attempts_spent evs + attempts_spent h)%nat.
Proof. unfold attempts_spent; now rewrite filter_app, length_app. Qed.

Lemma submissions_nil : submissions [] = 0%nat.
Proof. reflexivity. Qed.

Lemma attempts_spent_nil : attempts_spent [] = 0%nat.
Proof. reflexivity. Qed.

Lemma last_caught_app evs h :
  last_caught (evs ++ h)
  = match last_caught evs with
    | Some msg => Some msg
    | None => last_caught h
    end.
Proof.
  induction evs as [|e evs IH]; simpl; [reflexivity|].
  destruct e; auto.
Qed.

Lemma last_caught_none evs :
  attempts_spent evs = 0%nat -> last_caught evs = None.
Proof.
  induction evs as [|e evs IH]; [reflexivity|].
  rewrite attempts_spent_cons; destruct e; simpl; auto; discriminate.
Qed.

Lemma last_caught_some evs :
  attempts_spent evs <> 0%nat -> exists msg, last_caught evs = Some msg.
Proof.
  induction evs as [|e evs IH]; [intros H; now destruct H|].
  rewrite attempts_spent_cons; destruct e; simpl; eauto.
Qed.

Section CallFacts.

Variable env : Env.
Variable cfg : VideoAnalysisConfig.
Variables video_path user_query video_type : string.

Let analyze := analyze_video env cfg video_path user_query video_type.


Lemma analyze_video_missing fuel h0 :
  path_exists env h0 video_path = false ->
  analyze fuel h0
  = Some (Raise (FileNotFoundError "Video file not found"),
          EvExists video_path false :: h0).
Proof.
  intros Hp; subst analyze; unfold analyze_video, bind, os_path_exists.
  now rewrite Hp.
Qed.

Lemma analyze_video_found fuel h0 :
  path_exists env h0 video_path = true ->
  analyze fuel h0
  = retry_loop env cfg video_path user_query video_type
      (Z.to_nat (max_retries cfg)) fuel 0 None
      (EvExists video_path true :: h0).
Proof.
  intros Hp; subst analyze; unfold analyze_video, bind, os_path_exists.
  now rewrite Hp.
Qed.

Lemma analyze_video_inv fuel h0 r h' :
  path_exists env h0 video_path = true ->
  analyze fuel h0 = Some (r, h') ->
  exists evs,
    h' = evs ++ h0 /\
    call_post env cfg video_path user_query video_type h0 r evs.
Proof.
  intros Hp H; rewrite (analyze_video_found _ _ Hp) in H.
  apply retry_loop_inv in H as ([evs ->] & Hpost).
  exists (evs ++ [EvExists video_path true]).
  rewrite <- app_assoc; split; [reflexivity|].
  destruct r as [[c pt|msg]|e]; unfold loop_post, call_post in *.
  - destruct Hpost as (k & hb & pv & pv' & mid & t0 & t1 & Hk & [b ->]
                       & Hsp & Hsu & Hup & Hh & Hrest).
    exists k, (b ++ [EvExists video_path true]), pv, pv', mid, t0, t1.
    rewrite <- !app_assoc; simpl.
    rewrite !attempts_spent_app, !submissions_app in *.
    rewrite attempts_spent_cons, submissions_cons in *; simpl in *.
    rewrite submissions_nil, attempts_spent_nil.
    split; [lia|]. split; [lia|]. split; [lia|]. split; [exact Hup|].
    split; [|exact Hrest].
    apply (app_inv_tail h0).
    unfold success_events in *; simpl in *.
    rewrite <- !app_assoc in *; simpl in *.
    rewrite <- !app_assoc; exact Hh.
  - rewrite Z.sub_0_r in Hpost; destruct Hpost as (Hsu & Hsp & ->).
    rewrite !attempts_spent_app, !submissions_app in *.
    rewrite attempts_spent_cons, submissions_cons in *; simpl in *.
    rewrite submissions_nil, attempts_spent_nil.
    split; [lia|]. split; [lia|].
    rewrite !last_caught_app; simpl.
    destruct (Z.ltb_spec 0 (max_retries cfg)) as [Hlt|Hge].
    + destruct (last_caught_some evs) as [m Hm]; [lia|].
      rewrite Hm. f_equal; lia.
    + rewrite (last_caught_none evs) by lia. f_equal; lia.
  - exact Hpost.
Qed.

End CallFacts.

(** ** Termination *)


Lemma clock_monotone_extends env h' h :
  clock_monotone env -> extends h' h -> clock env h <= clock env h'.
Proof.
  intros Hm [evs ->]; induction evs as [|e evs IH]; simpl; [lia|].
  specialize (Hm e (evs ++ h)); lia.
Qed.

Lemma wall_clock_advances failures answer :
  clock_advances (Script.flaky failures answer).
Proof. intros e h; destruct e; simpl; lia. Qed.

Lemma wall_clock_monotone failures answer :
  clock_monotone (Script.flaky failures answer).
Proof. intros e h; destruct e; simpl; lia. Qed.

Section LoopTermination.

Variable env : Env.
Variable cfg : VideoAnalysisConfig.
Variables video_path user_query video_type : string.
Variable fuel : nat.

(** When every attempt ends, the loop ends within its budget. *)
Hypothesis Hattempt : forall h, exists r h',
  attempt env cfg video_path user_query video_type fuel h = Some (r, h').

Lemma retry_loop_terminates budget : forall attempts last_error h,
  (Z.to_nat (max_retries cfg - attempts) <= budget)%nat ->
  exists r h',
    retry_loop env cfg video_path user_query video_type budget fuel
      attempts last_error h = Some (r, h').
Proof.
  induction budget as [|budget IH]; intros a le h Hb.
  - rewrite retry_loop_done by lia; eauto.
  - destruct (Z.ltb_spec a (max_retries cfg)) as [Hlt|Hge];
      [|rewrite retry_loop_done by lia; eauto].
    destruct (Hattempt h) as ([[c pt]|e] & h1 & Ha).
    + simpl. destruct (Z.ltb_spec a (max_retries cfg)); [|lia].
      rewrite Ha; eauto.
    + rewrite (retry_loop_step _ _ _ _ _ _ _ _ _ _ _ _ Hlt Ha).
      unfold bind at 1, on_exception, bind, time_sleep, ret.
      destruct (a + 1 <? max_retries cfg);
        [destruct (retry_delay cfg <? 0); [eauto|]|];
        simpl; apply IH; lia.
Qed.

Lemma analyze_video_terminates h0 :
  exists r h',
    analyze_video env cfg video_path user_query video_type fuel h0
    = Some (r, h').
Proof.
  destruct (path_exists env h0 video_path) eqn:Hp.
  - rewrite (analyze_video_found _ _ _ _ _ _ _ Hp).
    apply retry_loop_terminates; lia.
  - rewrite (analyze_video_missing _ _ _ _ _ _ _ Hp); eauto.
Qed.

End LoopTermination.

(** ** Exhaustion and success of [analyze_video] *)

Section CallResults.

Variable env : Env.
Variable cfg : VideoAnalysisConfig.
Variables video_path user_query video_type : string.

Let analyze := analyze_video env cfg video_path user_query video_type.

(** With a delay that is not negative, no exception leaves
    [analyze_video] once the path exists, whatever the fuel. *)
Lemma analyze_video_never_raises fuel h0 r h' :
  0 <= retry_delay cfg ->
  path_exists env h0 video_path = true ->
  analyze fuel h0 = Some (r, h') ->
  exists outcome, r = Ok outcome.
Proof.
  intros Hd Hp H.
  apply analyze_video_inv in H as (evs & -> & Hpost); [|exact Hp].
  destruct r as [o|e]; [eauto|].
  destruct Hpost as [Hneg _]; lia.
Qed.

Lemma first_success_loop fuel c pt h' : forall failures budget a le h,
  first_success env cfg video_path user_query video_type fuel failures a h
    = Some (c, pt, h') ->
  a + Z.of_nat failures < max_retries cfg ->
  (Z.to_nat (max_retries cfg - a) <= budget)%nat ->
  retry_loop env cfg video_path user_query video_type budget fuel a le h
    = Some (Ok (Success c pt), h').
Proof.
  induction failures as [|j IH]; intros budget a le h H Hlt Hb;
    (destruct budget as [|budget]; [lia|]); simpl in H;
    destruct (attempt env cfg video_path user_query video_type fuel h)
      as [[[res|e] h1]|] eqn:Ea; try discriminate.
  - inversion H; subst; clear H. simpl.
    destruct (Z.ltb_spec a (max_retries cfg)); [|lia].
    now rewrite Ea.
  - assert (Ha : a < max_retries cfg) by lia.
    rewrite (retry_loop_step _ _ _ _ _ _ _ _ _ _ _ _ Ha Ea).
    destruct (on_exception cfg a e h1) as [[[st'|x] h2]|] eqn:Eh;
      try discriminate.
    rewrite (bind_ok _ _ _ _ _ Eh).
    apply on_exception_inv in Eh as [(_ & _ & Hr & _)|(Hr & _ & _)];
      [discriminate|].
    inversion Hr; subst; simpl in *.
    apply IH; [exact H|lia|lia].
Qed.

End CallResults.

(** C2: with [max_retries = N >= 1] and an upload service that refuses
    every submission, [analyze_video] makes exactly [N] submissions, spends
    [N] attempts, and returns the failure whose message reports [N]
    attempts. *)
Theorem permanent_upload_failure env cfg video_path user_query video_type
  fuel h0 :
  1 <= max_retries cfg ->
  0 <= retry_delay cfg ->
  path_exists env h0 video_path = true ->
  (forall h, exists e, upload_file env h video_path = inl e) ->
  exists evs last,
    analyze_video env cfg video_path user_query video_type fuel h0
      = Some (Ok (Failure (failure_message (max_retries cfg) (Some last))),
              evs ++ h0) /\
    submissions evs = Z.to_nat (max_retries cfg) /\
    attempts_spent evs = Z.to_nat (max_retries cfg).
Proof.
  intros HN Hdelay Hp Hdown.
  assert (Hfail : forall h, exists r h',
             attempt env cfg video_path user_query video_type fuel h
             = Some (r, h')).
  { intros h; destruct (Hdown h) as [e He].
    unfold attempt, bind, genai_upload_file; rewrite He; simpl; eauto. }
  destruct (analyze_video_terminates env cfg video_path user_query
              video_type fuel Hfail h0) as (r & h' & H).
  destruct (analyze_video_never_raises _ _ _ _ _ _ _ _ _ Hdelay Hp H)
    as [o ->].
  pose proof (analyze_video_inv _ _ _ _ _ _ _ _ _ Hp H) as (evs & -> & Hpost).
  destruct o as [c pt|msg]; simpl in Hpost.
  - destruct Hpost as (k & before & pv & _ & _ & _ & _ & _ & _ & _ & Hup & _).
    destruct (Hdown (before ++ h0)) as [e He]; congruence.
  - destruct Hpost as (Hsu & Hsp & ->).
    destruct (last_caught_some evs) as [last Hlast]; [lia|].
    exists evs, last; rewrite Hlast, Z2Nat.id in H by lia; auto.
Qed.

Lemma permanent_upload_failure_witness :
  exists evs,
    analyze_video Script.down (Script.config 3 2 300)
      "clip.mp4" "What happens?" "general" 0 []
    = Some (Ok (Failure
                  "Analysis failed after 3 attempts. Last error: upload refused"),
            evs ++ []) /\
    submissions evs = 3%nat.
Proof.
  destruct (permanent_upload_failure Script.down (Script.config 3 2 300)
              "clip.mp4" "What happens?" "general" 0 [])
    as (evs & last & H & Hsu & _).
  - simpl; lia.
  - simpl; lia.
  - reflexivity.
  - intros h; eexists; reflexivity.
  - exists evs; split; [|exact Hsu].
    rewrite H; vm_compute in H; inversion H; reflexivity.
Defined.

(** C9: with [max_retries = 0] and an existing path, [analyze_video] makes
    no submission and returns, without raising, the failure that reports 0
    attempts and the last error [None]; it needs no fuel. *)
Theorem zero_retries_fails_at_once env cfg video_path user_query video_type
  fuel h0 :
  max_retries cfg = 0 ->
  path_exists env h0 video_path = true ->
  analyze_video env cfg video_path user_query video_type fuel h0
  = Some (Ok (Failure "Analysis failed after 0 attempts. Last error: None"),
          EvExists video_path true :: h0) /\
  submissions (EvExists video_path true :: h0) = submissions h0.
Proof.
  intros H0 Hp; split; [|reflexivity].
  rewrite (analyze_video_found _ _ _ _ _ _ _ Hp), retry_loop_done by lia.
  reflexivity.
Qed.

Lemma zero_retries_fails_at_once_witness :
  analyze_video Script.down (Script.config 0 2 300)
    "clip.mp4" "What happens?" "general" 0 []
  = Some (Ok (Failure "Analysis failed after 0 attempts. Last error: None"),
          [EvExists "clip.mp4" true]).
Proof.
  apply (zero_retries_fails_at_once Script.down (Script.config 0 2 300)
           "clip.mp4" "What happens?" "general" 0 []); reflexivity.
Defined.

(** C3: when the submit, poll and infer cycle raises on attempts 1 to
    [k - 1] and returns on attempt [k], with [k <= max_retries],
    [analyze_video] returns the success that carries the agent's text, and
    exactly [k] submissions are made. *)
Theorem success_on_kth_attempt env cfg video_path user_query video_type
  fuel h0 (k : nat) content processing_time h' :
  (1 <= k)%nat ->
  Z.of_nat k <= max_retries cfg ->
  path_exists env h0 video_path = true ->
  first_success env cfg video_path user_query video_type fuel (k - 1) 0
    (EvExists video_path true :: h0)
  = Some (content, processing_time, h') ->
  analyze_video env cfg video_path user_query video_type fuel h0
    = Some (Ok (Success content processing_time), h') /\
  (exists t1 pv' rest,
     h' = EvTime t1
          :: EvAgentRun (generate_analysis_prompt user_query video_type) pv'
               (inr content)
          :: rest) /\
  exists evs,
    h' = evs ++ h0 /\ submissions evs = k /\
    attempts_spent evs = (k - 1)%nat.
Proof.
  intros Hk HN Hp Hrun.
  assert (H : analyze_video env cfg video_path user_query video_type fuel h0
              = Some (Ok (Success content processing_time), h')).
  { rewrite (analyze_video_found _ _ _ _ _ _ _ Hp).
    eapply first_success_loop; [exact Hrun|lia|lia]. }
  split; [exact H|]. split.
  { destruct (analyze_video_inv _ _ _ _ _ _ _ _ _ Hp H)
      as (evs & -> & k' & before & pv & pv' & mid & t0 & t1 & _ & _ & _ & _
          & -> & _).
    unfold success_events; simpl; eauto. }
  (* the count of failed attempts is read off the run *)
  assert (Hcount : forall j a h,
            first_success env cfg video_path user_query video_type fuel j a h
            = Some (content, processing_time, h') ->
            submissions h' = (submissions h + j + 1)%nat /\
            attempts_spent h' = (attempts_spent h + j)%nat /\
            extends h' h).
  { induction j as [|j IH]; intros a h Hj; simpl in Hj;
      destruct (attempt env cfg video_path user_query video_type fuel h)
        as [[[res|e] h1]|] eqn:Ea; try discriminate;
      destruct (attempt_counts _ _ _ _ _ _ _ _ _ Ea) as (Hsu & Hsp & _ & Hx).
    - inversion Hj; subst. repeat split; auto; lia.
    - destruct (on_exception cfg a e h1) as [[[st'|x] h2]|] eqn:Eh;
        try discriminate.
      apply on_exception_inv in Eh as [(_ & _ & Hr & _)|(Hr & -> & _)];
        [discriminate|].
      apply IH in Hj as (Hsu' & Hsp' & Hx').
      pose proof (handler_events (a + 1 <? max_retries cfg)
                    (retry_delay cfg) (str_exn e) h1) as Hev.
      simpl in Hev; destruct Hev as (Hs2 & Hp2 & _ & Hx2).
      repeat split; try lia.
      eapply extends_trans; [exact Hx'|].
      eapply extends_trans; eauto. }
  destruct (Hcount _ _ _ Hrun) as (Hsu & Hsp & [evs ->]).
  exists (evs ++ [EvExists video_path true]).
  rewrite <- app_assoc; split; [reflexivity|].
  rewrite !submissions_app, !attempts_spent_app in *.
  rewrite submissions_cons, attempts_spent_cons in *; simpl in *.
  rewrite submissions_nil, attempts_spent_nil; lia.
Qed.

(** The example of the specification: three attempts allowed, no delay,
    two refused submissions and then a ready handle answered with OK. *)
Lemma success_on_kth_attempt_witness :
  exists processing_time h',
    analyze_video (Script.flaky 2 "OK") (Script.config 3 0 300)
      "clip.mp4" "What happens?" "general" 0 []
    = Some (Ok (Success "OK" processing_time), h') /\
    submissions h' = 3%nat.
Proof.
  let run := eval vm_compute in
    (first_success (Script.flaky 2 "OK") (Script.config 3 0 300)
       "clip.mp4" "What happens?" "general" 0 2 0
       [EvExists "clip.mp4" true]) in
  match run with
  | Some (?c, ?pt, ?h) =>
      destruct (success_on_kth_attempt (Script.flaky 2 "OK")
                  (Script.config 3 0 300) "clip.mp4" "What happens?"
                  "general" 0 [] 3 c pt h)
        as (H & _ & evs & Hh & Hsu & _)
  end.
  - lia.
  - simpl; lia.
  - reflexivity.
  - vm_compute; reflexivity.
  - eexists _, _; split; [exact H|].
    rewrite Hh, app_nil_r; exact Hsu.
Defined.

(** C6: on a success of [analyze_video] the reported [processing_time] is
    the difference of two clock readings that both follow the submission
    of the attempt that succeeded: [start_time], read when that submission
    has returned, and the reading made after the inference call.  No
    attempt is spent and no other submission is made between the two, so
    the time of failed attempts is not counted; with a clock that never
    runs backwards the value is not negative. *)
Theorem processing_time_of_last_attempt env cfg video_path user_query
  video_type fuel h0 content processing_time h' :
  clock_monotone env ->
  path_exists env h0 video_path = true ->
  analyze_video env cfg video_path user_query video_type fuel h0
    = Some (Ok (Success content processing_time), h') ->
  0 <= processing_time /\
  exists before pv pv' mid t0 t1,
    h' = success_events user_query video_type content pv' mid t0 t1
         ++ EvUpload video_path (inr pv) :: before ++ h0 /\
    forallb is_poll_event mid = true /\
    t0 = clock env (EvUpload video_path (inr pv) :: before ++ h0) /\
    t1 = clock env
           (EvAgentRun (generate_analysis_prompt user_query video_type)
              pv' (inr content)
            :: mid ++ EvTime t0
            :: EvUpload video_path (inr pv) :: before ++ h0) /\
    processing_time = t1 - t0 /\
    attempts_spent h' = attempts_spent (before ++ h0) /\
    submissions h' = S (submissions (before ++ h0)).
Proof.
  intros Hmono Hp H.
  apply analyze_video_inv in H as (evs & -> & Hpost); [|exact Hp].
  destruct Hpost as (k & before & pv & pv' & mid & t0 & t1 & _ & _ & _ & _
                     & -> & Hmid & Ht0 & Ht1 & Hpt).
  split.
  - subst processing_time t1.
    assert (t0 <= clock env
              (EvAgentRun (generate_analysis_prompt user_query video_type)
                 pv' (inr content)
               :: mid ++ EvTime t0
               :: EvUpload video_path (inr pv) :: before ++ h0)); [|lia].
    rewrite Ht0 at 1.
    apply clock_monotone_extends; [exact Hmono|].
    exists (EvAgentRun (generate_analysis_prompt user_query video_type)
              pv' (inr content) :: mid ++ [EvTime t0]).
    simpl; now rewrite <- app_assoc.
  - exists before, pv, pv', mid, t0, t1.
    rewrite <- app_assoc; simpl.
    split; [reflexivity|]. split; [exact Hmid|]. split; [exact Ht0|].
    split; [exact Ht1|]. split; [exact Hpt|].
    unfold success_events; simpl.
    rewrite !attempts_spent_cons, !submissions_cons; simpl.
    rewrite <- app_assoc; simpl.
    destruct (poll_events_quiet mid
                (EvTime t0 :: EvUpload video_path (inr pv) :: before ++ h0)
                Hmid) as (-> & -> & _).
    rewrite !attempts_spent_cons, !submissions_cons; simpl; auto.
Qed.

Lemma processing_time_of_last_attempt_witness :
  exists h',
    analyze_video (Script.flaky 2 "OK") (Script.config 3 2 300)
      "clip.mp4" "What happens?" "general" 0 []
    = Some (Ok (Success "OK" 2), h') /\ 0 <= 2.
Proof.
  let run := eval vm_compute in
    (analyze_video (Script.flaky 2 "OK") (Script.config 3 2 300)
       "clip.mp4" "What happens?" "general" 0 []) in
  match run with
  | Some (_, ?h) =>
      exists h; split; [vm_compute; reflexivity|];
      apply (processing_time_of_last_attempt (Script.flaky 2 "OK")
               (Script.config 3 2 300) "clip.mp4" "What happens?" "general"
               0 [] "OK" 2 h)
  end.
  - apply wall_clock_monotone.
  - reflexivity.
  - vm_compute; reflexivity.
Defined.

(** Whatever exception an attempt raises, the handler spends one attempt
    on it: the loop goes on with [attempts + 1] and with the text of that
    exception as the last error. *)
Lemma retry_loop_raise env cfg video_path user_query video_type budget fuel
  attempts last_error h e h1 :
  0 <= retry_delay cfg ->
  attempts < max_retries cfg ->
  attempt env cfg video_path user_query video_type fuel h
    = Some (Raise e, h1) ->
  let h2 := (if attempts + 1 <? max_retries cfg
             then [EvSleep (retry_delay cfg)] else [])
            ++ EvCaught (str_exn e) :: h1 in
  attempts_spent h2 = S (attempts_spent h) /\
  submissions h2 = S (submissions h) /\
  retry_loop env cfg video_path user_query video_type (S budget) fuel
    attempts last_error h
  = retry_loop env cfg video_path user_query video_type budget fuel
      (attempts + 1) (Some (str_exn e)) h2.
Proof.
  intros Hd Hlt Ea h2.
  destruct (attempt_counts _ _ _ _ _ _ _ _ _ Ea) as (Hsu & Hsp & _ & _).
  pose proof (handler_events (attempts + 1 <? max_retries cfg)
                (retry_delay cfg) (str_exn e) h1) as Hev.
  simpl in Hev; fold h2 in Hev; destruct Hev as (Hs2 & Hp2 & _ & _).
  split; [lia|]. split; [lia|].
  rewrite (retry_loop_step _ _ _ _ _ _ _ _ _ _ _ _ Hlt Ea).
  unfold bind at 1, on_exception, bind, time_sleep, ret; subst h2.
  destruct (attempts + 1 <? max_retries cfg); [|reflexivity].
  destruct (Z.ltb_spec (retry_delay cfg) 0); [lia|reflexivity].
Qed.

Lemma wall_clock_advances_stuck : clock_advances Script.stuck.
Proof. intros e h; destruct e; simpl; lia. Qed.

(** ** Handles *)

Lemma File_eqb_refl f : File_eqb f f = true.
Proof. unfold File_eqb; now rewrite !String.eqb_refl. Qed.

(** The discipline is not empty: a refresh of the handle of a failed
    attempt, made after the error was caught, breaks it. *)
Example reused_handle_breaks_discipline :
  in_flight [EvGetFile "files/abc" (inr Script.processing);
             EvCaught "Video processing timeout";
             EvTime 7;
             EvUpload "clip.mp4" (inr Script.processing)]
  = None.
Proof. reflexivity. Qed.

Section Handles.

Variable env : Env.
Variable cfg : VideoAnalysisConfig.
Variables video_path user_query video_type : string.

Lemma poll_in_flight fuel : forall start pv h r h',
  in_flight h = Some (Some pv) ->
  poll env cfg fuel start pv h = Some (r, h') ->
  match r with
  | Ok pv' => in_flight h' = Some (Some pv')
  | Raise _ => exists cur, in_flight h' = Some cur
  end.
Proof.
  induction fuel as [|fuel IH]; intros start pv h r h' Hf; simpl;
    destruct (file_state_name pv =? "PROCESSING")%string;
    try discriminate;
    try (intros H; inversion H; subst; exact Hf).
  unfold bind at 1, time_time at 1.
  destruct (timeout cfg <? clock env h - start).
  { intros H; inversion H; subst; simpl; rewrite Hf; simpl; eauto. }
  intros H; apply bind_inv in H as [(e & Hs & ->)|(u & h1 & Hs & H1)];
    apply time_sleep_inv in Hs as [(_ & -> & Hr)|(_ & -> & Hr)];
    try discriminate.
  { simpl; rewrite Hf; simpl; eauto. }
  apply bind_inv in H1 as [(e & Hg & ->)|(pv1 & h2 & Hg & H2)];
    unfold genai_get_file in Hg; inversion Hg as [[Hl Hh]]; subst; clear Hg.
  { simpl; rewrite Hf; simpl; rewrite String.eqb_refl; eauto. }
  destruct (get_file env _ (file_name pv)) as [e|pv2] eqn:Eg;
    simpl in Hl; inversion Hl; subst; clear Hl.
  apply IH in H2; [exact H2|].
  simpl; rewrite Hf; simpl; now rewrite String.eqb_refl.
Qed.

Lemma attempt_in_flight fuel h r h' :
  in_flight h = Some None ->
  attempt env cfg video_path user_query video_type fuel h = Some (r, h') ->
  match r with
  | Ok _ => in_flight h' = Some None
  | Raise _ => exists cur, in_flight h' = Some cur
  end.
Proof.
  intros Hf H; unfold attempt in H.
  apply bind_inv in H as [(e & Hu & ->)|(pv & h1 & Hu & H)];
    unfold genai_upload_file in Hu; inversion Hu as [[Hl Hh]]; subst; clear Hu.
  { simpl; rewrite Hf; simpl; eauto. }
  destruct (upload_file env h video_path) as [e|pv0] eqn:Eup;
    simpl in Hl; inversion Hl; subst; clear Hl.
  apply bind_inv in H as [(e & Ht & ->)|(t0 & h2 & Ht & H)];
    unfold time_time in Ht; inversion Ht; subst; clear Ht.
  assert (Hf1 : in_flight
                  (EvTime (clock env (EvUpload video_path (inr pv) :: h))
                           :: EvUpload video_path (inr pv) :: h)
                = Some (Some pv)) by (simpl; now rewrite Hf).
  apply bind_inv in H as [(e & Hp & ->)|(pv' & h3 & Hp & H)];
    apply (poll_in_flight _ _ _ _ _ _ Hf1) in Hp; [exact Hp|].
  apply bind_inv in H as [(e & Ha & ->)|(content & h4 & Ha & H)];
    unfold agent_run_content in Ha; inversion Ha as [[Hl Hh]]; subst;
    clear Ha.
  { simpl; rewrite Hp; simpl; rewrite File_eqb_refl; eauto. }
  apply bind_inv in H as [(e & Ht & ->)|(t1 & h5 & Ht & H)];
    unfold time_time in Ht; inversion Ht; subst; clear Ht.
  unfold ret in H; inversion H; subst; clear H.
  simpl; rewrite Hp; simpl; now rewrite File_eqb_refl.
Qed.

(** The loop keeps the discipline and leaves no handle in flight, and
    it makes one submission per spent attempt, and one more when it
    ends in success. *)
Lemma retry_loop_handles budget fuel : forall attempts last_error h r h',
  in_flight h = Some None ->
  retry_loop env cfg video_path user_query video_type budget fuel attempts
    last_error h = Some (r, h') ->
  in_flight h' = Some None /\
  (submissions h' + attempts_spent h
   = submissions h + attempts_spent h'
     + match r with Ok (Success _ _) => 1 | _ => 0 end)%nat.
Proof.
  induction budget as [|budget IH]; intros a le h r h' Hf H.
  - simpl in H; destruct (a <? max_retries cfg); [discriminate|].
    inversion H; subst; split; [exact Hf|lia].
  - destruct (Z.ltb_spec a (max_retries cfg)) as [Hlt|Hge].
    2:{ rewrite retry_loop_done in H by lia.
        inversion H; subst; split; [exact Hf|lia]. }
    destruct (attempt env cfg video_path user_query video_type fuel h)
      as [[[[c pt]|e] h1]|] eqn:Ea.
    + simpl in H. destruct (Z.ltb_spec a (max_retries cfg)); [|lia].
      rewrite Ea in H; inversion H; subst; clear H.
      destruct (attempt_counts _ _ _ _ _ _ _ _ _ Ea) as (Hsu & Hsp & _).
      split; [|lia].
      exact (attempt_in_flight _ _ _ _ Hf Ea).
    + rewrite (retry_loop_step _ _ _ _ _ _ _ _ _ _ _ _ Hlt Ea) in H.
      destruct (attempt_counts _ _ _ _ _ _ _ _ _ Ea) as (Hsu & Hsp & _).
      destruct (attempt_in_flight _ _ _ _ Hf Ea) as [cur Hcur].
      pose proof (handler_events (a + 1 <? max_retries cfg)
                    (retry_delay cfg) (str_exn e) h1) as Hev.
      simpl in Hev; destruct Hev as (Hs2 & Hp2 & _ & _).
      apply bind_inv in H as [(x & Hh & ->)|(st' & h2 & Hh & H)];
        apply on_exception_inv in Hh
          as [(_ & _ & Hr & ->)|(Hr & -> & _)]; try discriminate.
      * rewrite submissions_cons, attempts_spent_cons; simpl.
        rewrite Hcur; simpl; split; [reflexivity|lia].
      * inversion Hr; subst; clear Hr; simpl fst in H; simpl snd in H.
        apply IH in H as (Hfl & Hcount); [split; [exact Hfl|lia]|].
        destruct (a + 1 <? max_retries cfg); simpl; rewrite Hcur;
          reflexivity.
    + simpl in H. destruct (Z.ltb_spec a (max_retries cfg)); [|lia].
      rewrite Ea in H; discriminate.
Qed.

End Handles.

(** C7: along a call of [analyze_video] at most one handle is in flight:
    every submission is made while no handle is held, every refresh and
    every inference is made on the handle obtained by the last submission
    or refresh, and a caught error drops the handle, so that each retry
    starts with a submission of its own; one submission is made per spent
    attempt, and one more by the attempt that succeeds. *)
Theorem one_handle_per_attempt env cfg video_path user_query video_type
  fuel h0 r h' :
  in_flight h0 = Some None ->
  analyze_video env cfg video_path user_query video_type fuel h0
    = Some (r, h') ->
  in_flight h' = Some None /\
  exists evs,
    h' = evs ++ h0 /\
    submissions evs
    = (attempts_spent evs
       + match r with Ok (Success _ _) => 1 | _ => 0 end)%nat.
Proof.
  intros Hf H.
  destruct (path_exists env h0 video_path) eqn:Hp.
  - rewrite (analyze_video_found _ _ _ _ _ _ _ Hp) in H.
    pose proof (retry_loop_inv _ _ _ _ _ _ _ _ _ _ _ _ H) as ([evs Hh] & _).
    apply retry_loop_handles in H as (Hfl & Hcount);
      [|simpl; now rewrite Hf].
    split; [exact Hfl|].
    exists (evs ++ [EvExists video_path true]).
    subst h'; rewrite <- app_assoc; split; [reflexivity|].
    rewrite !submissions_app, !attempts_spent_app in *.
    rewrite submissions_cons, attempts_spent_cons in *; simpl in *.
    rewrite submissions_nil, attempts_spent_nil; lia.
  - rewrite (analyze_video_missing _ _ _ _ _ _ _ Hp) in H.
    inversion H; subst; simpl; rewrite Hf; split; [reflexivity|].
    exists [EvExists video_path false]; split; reflexivity.
Qed.

Lemma one_handle_per_attempt_witness :
  exists h',
    analyze_video Script.stuck (Script.config 2 2 5) "clip.mp4"
      "What happens?" "general" 7 []
    = Some (Ok (Failure
        "Analysis failed after 2 attempts. Last error: Video processing timeout"),
            h') /\
    in_flight h' = Some None.
Proof.
  let run := eval vm_compute in
    (analyze_video Script.stuck (Script.config 2 2 5) "clip.mp4"
       "What happens?" "general" 7 []) in
  match run with
  | Some (?r, ?h) =>
      exists h; split; [vm_compute; reflexivity|];
      apply (one_handle_per_attempt Script.stuck (Script.config 2 2 5)
               "clip.mp4" "What happens?" "general" 7 [] r h)
  end.
  - reflexivity.
  - vm_compute; reflexivity.
Defined.

(** ** The format check *)

Lemma length_append (a b : string) :
  String.length (a ++ b)%string = (String.length a + String.length b)%nat.
Proof. induction a as [|c a IH]; simpl; [reflexivity|now rewrite IH]. Qed.

Lemma eqb_length (a b : string) :
  String.length a <> String.length b -> (a =? b)%string = false.
Proof. intros H; apply String.eqb_neq; intros ->; now apply H. Qed.

Lemma endswith_unfold (s suffix : string) :
  Py.endswith s suffix
  = (s =? suffix)%string
    || match s with
       | EmptyString => false
       | String _ s' => Py.endswith s' suffix
       end.
Proof. destruct s; reflexivity. Qed.

Lemma endswith_append (pre suffix : string) :
  Py.endswith (pre ++ suffix)%string suffix = true.
Proof.
  induction pre as [|c pre IH].
  - change (""%string ++ suffix)%string with suffix.
    now rewrite endswith_unfold, String.eqb_refl.
  - change (Py.endswith (String c pre ++ suffix) suffix)
      with ((String c (pre ++ suffix) =? suffix)%string
            || Py.endswith (pre ++ suffix) suffix).
    rewrite IH; apply orb_true_r.
Qed.

Lemma endswith_spec (s suffix : string) :
  Py.endswith s suffix = true <-> exists pre, s = (pre ++ suffix)%string.
Proof.
  split.
  - induction s as [|c s IH]; rewrite endswith_unfold; intros H;
      apply orb_true_iff in H as [H|H]; try discriminate.
    + apply String.eqb_eq in H; subst; exists ""%string; reflexivity.
    + apply String.eqb_eq in H; subst; exists ""%string; reflexivity.
    + destruct (IH H) as [pre ->]; exists (String c pre); reflexivity.
  - intros [pre ->]; apply endswith_append.
Qed.

(** A suffix that is longer than the tested one and ends differently is
    never mistaken for it, whatever precedes it. *)
Lemma endswith_longer_tail (s tail suffix : string) :
  (String.length suffix < String.length tail)%nat ->
  Py.endswith tail suffix = false ->
  Py.endswith (s ++ tail)%string suffix = false.
Proof.
  intros Hlen Htail; induction s as [|c s IH]; [exact Htail|].
  change (Py.endswith (String c s ++ tail) suffix)
    with ((String c (s ++ tail) =? suffix)%string
          || Py.endswith (s ++ tail) suffix).
  rewrite IH, orb_false_r.
  apply eqb_length; simpl; rewrite length_append; lia.
Qed.

Lemma lower_append (a b : string) :
  Py.lower (a ++ b)%string = (Py.lower a ++ Py.lower b)%string.
Proof. induction a as [|c a IH]; simpl; [reflexivity|now rewrite IH]. Qed.

(** C10: the format check of [process_video] is a test on the end of the
    lower-cased name: with the default formats a name passes exactly when
    its lower-cased form ends with mp4, mov or avi, with or without a dot
    before them; clipmp4 passes, and every name that ends with .mp4x is
    refused. *)
Theorem format_check_is_suffix_test :
  (forall name,
     supported default_config name = true <->
     exists stem suffix,
       In suffix ["mp4"; "mov"; "avi"] /\
       Py.lower name = (stem ++ suffix)%string) /\
  supported default_config "clipmp4" = true /\
  (forall stem, supported default_config (stem ++ ".mp4x")%string = false).
Proof.
  split; [|split].
  - intros name; unfold supported, Py.endswith_any.
    rewrite existsb_exists; split.
    + intros (suffix & Hin & Hend).
      apply endswith_spec in Hend as [stem Hstem]; eauto.
    + intros (stem & suffix & Hin & Hstem).
      exists suffix; split; [exact Hin|].
      apply endswith_spec; eauto.
  - reflexivity.
  - intros stem; unfold supported, Py.endswith_any; simpl.
    rewrite lower_append; simpl.
    rewrite !endswith_longer_tail; simpl; auto; lia.
Qed.

(** ** Staging and cleanup in [main] *)

Lemma remove_path_not_in p l : ~ In p (remove_path p l).
Proof.
  induction l as [|q l IH]; simpl; [tauto|].
  destruct (String.eqb_spec p q); simpl; [exact IH|].
  intros [H|H]; [now subst|now apply IH].
Qed.

Section Main.

Variable env : Env.
Variable cfg : VideoAnalysisConfig.

Lemma try_finally_unlink_inv {A} (m : M A) p h r h' :
  try_finally m (path_unlink p) h = Some (r, h') ->
  exists h1, m h = Some (r, h1) /\ h' = EvUnlink p :: h1.
Proof.
  unfold try_finally, path_unlink.
  destruct (m h) as [[r1 h1]|]; [|discriminate].
  intros H; inversion H; subst; eauto.
Qed.

Lemma process_video_unsupported f h :
  supported cfg (uploaded_name f) = false ->
  process_video env cfg (Some f) h
  = Some (Raise (ValueError ("Unsupported file format. Please upload: "
                             ++ Py.join ", " (supported_formats cfg))%string),
          h).
Proof. intros Hs; unfold process_video; now rewrite Hs. Qed.

Lemma process_video_staged f h p :
  supported cfg (uploaded_name f) = true ->
  temp_file env h = inr p ->
  write_file env (EvTempFile (inr p) :: h) p (uploaded_bytes f) = None ->
  process_video env cfg (Some f) h
  = Some (Ok p, EvWrite p (uploaded_bytes f) None
                :: EvTempFile (inr p) :: h).
Proof.
  intros Hs Ht Hw; unfold process_video; rewrite Hs; simpl.
  unfold bind, named_temporary_file, file_write, ret.
  rewrite Ht; simpl; now rewrite Hw.
Qed.

(** When the button is pressed and a question is typed, the staged file
    is unlinked however the analysis ends. *)
Lemma analysis_path_unlinks w fuel h f p r h' :
  uploaded_video w = Some f ->
  supported cfg (uploaded_name f) = true ->
  temp_file env h = inr p ->
  write_file env (EvTempFile (inr p) :: h) p (uploaded_bytes f) = None ->
  button_pressed w = true ->
  is_empty (typed_query w) = false ->
  main env cfg w fuel h = Some (r, h') ->
  ~ In p (staged h').
Proof.
  intros Hf Hs Ht Hw Hb Hq H.
  unfold main, try_except, main_body in H; rewrite Hf in H.
  rewrite (bind_ok _ _ _ _ _ (process_video_staged _ _ _ Hs Ht Hw)) in H.
  unfold bind at 1, st at 1 in H; rewrite Hb, Hq in H.
  destruct (try_finally _ _ _) as [[r1 h1]|] eqn:Efin in H;
    [|discriminate].
  apply try_finally_unlink_inv in Efin as (h2 & _ & ->).
  destruct r1 as [u|e]; inversion H; subst; simpl;
    apply remove_path_not_in.
Qed.

(** When the button is not pressed, or no question is typed, [main]
    ends with the staged file still there. *)
Lemma idle_path_keeps_staged_file w fuel h f p :
  uploaded_video w = Some f ->
  supported cfg (uploaded_name f) = true ->
  temp_file env h = inr p ->
  write_file env (EvTempFile (inr p) :: h) p (uploaded_bytes f) = None ->
  button_pressed w = false \/ is_empty (typed_query w) = true ->
  exists h', main env cfg w fuel h = Some (Ok tt, h') /\ In p (staged h').
Proof.
  intros Hf Hs Ht Hw Hidle.
  unfold main, try_except, main_body; rewrite Hf.
  rewrite (bind_ok _ _ _ _ _ (process_video_staged _ _ _ Hs Ht Hw)).
  unfold bind at 1, st at 1.
  destruct (button_pressed w); [|eexists; split; [reflexivity|simpl; auto]].
  destruct Hidle as [Hb|Hq]; [discriminate|]; rewrite Hq.
  eexists; split; [reflexivity|simpl; auto].
Qed.

End Main.

(** C4: a file whose name fails the format check makes [process_video]
    raise at once, with no call made at all; [main] then reports the
    error without a submission to the upload service, without spending an
    attempt and without staging a file. *)
Theorem unsupported_format_spends_nothing env cfg f h :
  supported cfg (uploaded_name f) = false ->
  process_video env cfg (Some f) h
  = Some (Raise (ValueError ("Unsupported file format. Please upload: "
                             ++ Py.join ", " (supported_formats cfg))%string),
          h) /\
  forall w fuel,
    uploaded_video w = Some f ->
    exists h',
      main env cfg w fuel h = Some (Ok tt, h') /\
      submissions h' = submissions h /\
      attempts_spent h' = attempts_spent h /\
      staged h' = staged h.
Proof.
  intros Hs; split; [now apply process_video_unsupported|].
  intros w fuel Hf.
  unfold main, try_except, main_body; rewrite Hf.
  rewrite (bind_raise _ _ _ _ _ (process_video_unsupported env cfg f h Hs)).
  eexists; split; [reflexivity|].
  rewrite !submissions_cons, !attempts_spent_cons; simpl; auto.
Qed.

Lemma unsupported_format_spends_nothing_witness :
  process_video Script.down default_config
    (Some {| uploaded_name := "notes.txt"; uploaded_bytes := "abc" |}) []
  = Some (Raise (ValueError
                   "Unsupported file format. Please upload: mp4, mov, avi"),
          []).
Proof.
  apply (unsupported_format_spends_nothing Script.down default_config
           {| uploaded_name := "notes.txt"; uploaded_bytes := "abc" |} []).
  reflexivity.
Defined.

(** C8, on the path the source misses: a run of [main] with a video
    uploaded and the button not pressed stages the file and ends without
    unlinking it. *)
Theorem main_leaves_staged_file :
  let w := {| selected_video_type := "general";
              uploaded_video :=
                Some {| uploaded_name := "clip.mp4"; uploaded_bytes := "abc" |};
              typed_query := "What happens?";
              button_pressed := false |} in
  main (Script.flaky 0 "OK") default_config w 0 []
  = Some (Ok tt,
          [EvSt (StVideo "/tmp/tmpvideo.mp4");
           EvWrite "/tmp/tmpvideo.mp4" "abc" None;
           EvTempFile (inr "/tmp/tmpvideo.mp4")]) /\
  staged [EvSt (StVideo "/tmp/tmpvideo.mp4");
          EvWrite "/tmp/tmpvideo.mp4" "abc" None;
          EvTempFile (inr "/tmp/tmpvideo.mp4")]
  = ["/tmp/tmpvideo.mp4"].
Proof. split; reflexivity. Qed.

(** ** More on [analyze_video]: sleeps, refreshes and inferences *)

Lemma refreshes_cons e h :
  refreshes (e :: h) = ((if is_refresh e then 1 else 0) + refreshes h)%nat.
Proof. unfold refreshes; simpl; destruct (is_refresh e); reflexivity. Qed.

Lemma inferences_cons e h :
  inferences (e :: h)
  = ((if is_inference e then 1 else 0) + inferences h)%nat.
Proof. unfold inferences; simpl; destruct (is_inference e); reflexivity. Qed.

Section PollBound.

Variable env : Env.
Variable cfg : VideoAnalysisConfig.
Variables video_path user_query video_type : string.

Hypothesis Hclock : clock_advances env.
Hypothesis Hdelay : 1 <= retry_delay cfg.

(** Every round of polling sleeps once and refreshes once, and the
    rounds fit in what is left of the timeout. *)
Lemma poll_bound fuel : forall start pv h r h',
  start <= clock env h ->
  poll env cfg fuel start pv h = Some (r, h') ->
  exists k : nat,
    refreshes h' = (refreshes h + k)%nat /\
    slept h' = slept h + Z.of_nat k * retry_delay cfg /\
    Z.of_nat k * retry_delay cfg
    <= Z.max 0 (timeout cfg + retry_delay cfg - (clock env h - start)).
Proof.
  induction fuel as [|fuel IH]; intros start pv h r h' Hstart; simpl;
    destruct (file_state_name pv =? "PROCESSING")%string;
    try discriminate;
    try (intros H; inversion H; subst; exists 0%nat;
         split; [lia|split; lia]).
  unfold bind at 1, time_time at 1.
  destruct (Z.ltb_spec (timeout cfg) (clock env h - start)) as [Hout|Hin].
  { intros H; inversion H; subst; exists 0%nat.
    rewrite ?refreshes_cons; cbn [slept is_refresh];
    split; [lia|split; lia]. }
  unfold bind at 1, time_sleep at 1.
  destruct (Z.ltb_spec (retry_delay cfg) 0) as [Hneg|Hpos]; [lia|].
  unfold bind at 1, genai_get_file at 1.
  pose proof (Hclock (EvTime (clock env h)) h) as C1.
  pose proof (Hclock (EvSleep (retry_delay cfg))
                (EvTime (clock env h) :: h)) as C2.
  simpl in C1, C2.
  destruct (get_file env _ (file_name pv)) as [e|pv1] eqn:Eg; simpl.
  - intros H; inversion H; subst; exists 1%nat.
    rewrite ?refreshes_cons; cbn [slept is_refresh];
    split; [lia|split; lia].
  - pose proof (Hclock (EvGetFile (file_name pv) (inr pv1))
                  (EvSleep (retry_delay cfg) :: EvTime (clock env h) :: h))
      as C3.
    simpl in C3.
    intros H; apply IH in H as (k & Hr & Hs & Hk); [|lia].
    exists (S k); rewrite !refreshes_cons in Hr;
      cbn [slept is_refresh] in Hr, Hs.
    split; [lia|split; lia].
Qed.

Lemma attempt_bound fuel h r h' :
  attempt env cfg video_path user_query video_type fuel h = Some (r, h') ->
  exists k : nat,
    refreshes h' = (refreshes h + k)%nat /\
    slept h' = slept h + Z.of_nat k * retry_delay cfg /\
    Z.of_nat k * retry_delay cfg <= Z.max 0 (timeout cfg + retry_delay cfg).
Proof.
  unfold attempt; intros H.
  apply bind_inv in H as [(e & Hu & ->)|(pv & h1 & Hu & H)];
    unfold genai_upload_file in Hu; inversion Hu as [[Hl Hh]]; subst; clear Hu.
  { exists 0%nat; rewrite ?refreshes_cons; cbn [slept is_refresh];
    split; [lia|split; lia]. }
  apply bind_inv in H as [(e & Ht & ->)|(t0 & h2 & Ht & H)];
    unfold time_time in Ht; inversion Ht; subst; clear Ht.
  set (hu := EvUpload video_path (upload_file env h video_path) :: h) in *.
  pose proof (Hclock (EvTime (clock env hu)) hu) as C1; simpl in C1.
  assert (Hbase : refreshes (EvTime (clock env hu) :: hu) = refreshes h /\
                  slept (EvTime (clock env hu) :: hu) = slept h).
  { subst hu; rewrite !refreshes_cons; cbn [slept is_refresh];
    split; lia. }
  destruct Hbase as [Hb1 Hb2].
  apply bind_inv in H as [(e & Hp & ->)|(pv' & h3 & Hp & H)];
    apply poll_bound in Hp as (k & Hr & Hs & Hk); try lia.
  { exists k; rewrite Hr, Hs, Hb1, Hb2; split; [lia|split; lia]. }
  apply bind_inv in H as [(e & Ha & ->)|(content & h4 & Ha & H)];
    unfold agent_run_content in Ha; inversion Ha as [[Hl' Hh]]; subst;
    clear Ha.
  { exists k; rewrite refreshes_cons; cbn [slept is_refresh].
    rewrite Hr, Hs, Hb1, Hb2; split; [lia|split; lia]. }
  apply bind_inv in H as [(e & Ht & ->)|(t1 & h5 & Ht & H)];
    unfold time_time in Ht; inversion Ht; subst; clear Ht.
  unfold ret in H; inversion H; subst; clear H.
  exists k; rewrite !refreshes_cons; cbn [slept is_refresh].
  rewrite Hr, Hs, Hb1, Hb2; split; [lia|split; lia].
Qed.

End PollBound.

(** With a clock that sleeping moves on and a delay of at least one
    unit, one attempt refreshes its handle [k] times and sleeps [k] times
    the delay, and that total is at most the timeout plus one delay. *)
Theorem attempt_polling_is_bounded env cfg video_path user_query video_type
  fuel h r h' :
  clock_advances env ->
  1 <= retry_delay cfg ->
  attempt env cfg video_path user_query video_type fuel h = Some (r, h') ->
  exists k : nat,
    refreshes h' = (refreshes h + k)%nat /\
    slept h' = slept h + Z.of_nat k * retry_delay cfg /\
    Z.of_nat k * retry_delay cfg <= Z.max 0 (timeout cfg + retry_delay cfg).
Proof. intros Hclock Hdelay; now apply attempt_bound. Qed.

Lemma attempt_polling_is_bounded_witness :
  exists (k : nat) h',
    attempt Script.stuck (Script.config 2 2 5) "clip.mp4" "What happens?"
      "general" 7 []
    = Some (Raise (TimeoutError "Video processing timeout"), h') /\
    refreshes h' = k /\ Z.of_nat k * 2 <= 7.
Proof.
  let run := eval vm_compute in
    (attempt Script.stuck (Script.config 2 2 5) "clip.mp4" "What happens?"
       "general" 7 []) in
  match run with
  | Some (?r, ?h) =>
      destruct (attempt_polling_is_bounded Script.stuck
                  (Script.config 2 2 5) "clip.mp4" "What happens?"
                  "general" 7 [] r h) as (k & Hr & _ & Hk);
      [apply wall_clock_advances_stuck | simpl; lia
      | vm_compute; reflexivity |];
      exists k, h; split; [vm_compute; reflexivity|split; [exact Hr|]]
  end.
  simpl in Hk; lia.
Defined.

Section Scenarios.

Variable env : Env.
Variable cfg : VideoAnalysisConfig.
Variables video_path user_query video_type : string.

Let prompt := generate_analysis_prompt user_query video_type.

(** A refused submission is the whole attempt. *)
Lemma attempt_refused fuel h e :
  upload_file env h video_path = inl e ->
  attempt env cfg video_path user_query video_type fuel h
  = Some (Raise e, EvUpload video_path (inl e) :: h).
Proof.
  intros Hup; unfold attempt, bind, genai_upload_file; now rewrite Hup.
Qed.

(** A handle that is not in PROCESSING when the submission returns goes
    to the agent at once. *)
Lemma attempt_ready fuel h pv :
  upload_file env h video_path = inr pv ->
  file_state_name pv <> "PROCESSING"%string ->
  let hu := EvUpload video_path (inr pv) :: h in
  let h2 := EvTime (clock env hu) :: hu in
  attempt env cfg video_path user_query video_type fuel h
  = match agent_run env h2 prompt pv with
    | inl e => Some (Raise e, EvAgentRun prompt pv (inl e) :: h2)
    | inr content =>
        let h3 := EvAgentRun prompt pv (inr content) :: h2 in
        Some (Ok (content, clock env h3 - clock env hu),
              EvTime (clock env h3) :: h3)
    end.
Proof.
  intros Hup Hst hu h2.
  apply String.eqb_neq in Hst.
  unfold attempt, bind at 1, genai_upload_file at 1; rewrite Hup; simpl.
  unfold bind at 1, time_time at 1.
  assert (Hp : poll env cfg fuel (clock env hu) pv h2 = Some (Ok pv, h2))
    by (destruct fuel; simpl; now rewrite Hst).
  fold hu; fold h2; rewrite (bind_ok _ _ _ _ _ Hp).
  unfold bind at 1, agent_run_content at 1; fold prompt.
  destruct (agent_run env h2 prompt pv); reflexivity.
Qed.

(** The loop when every attempt raises, adds no sleep of its own and
    makes [c] inference calls: the only sleeps are the back-offs between
    attempts. *)
Lemma retry_loop_all_raise fuel (c : nat) :
  0 <= retry_delay cfg ->
  (forall h, exists e h1,
      attempt env cfg video_path user_query video_type fuel h
        = Some (Raise e, h1) /\
      slept h1 = slept h /\
      inferences h1 = (inferences h + c)%nat) ->
  forall budget a le h,
    a < max_retries cfg ->
    (Z.to_nat (max_retries cfg - a) <= budget)%nat ->
    exists msg h',
      retry_loop env cfg video_path user_query video_type budget fuel a le h
        = Some (Ok (Failure msg), h') /\
      slept h' = slept h + (max_retries cfg - a - 1) * retry_delay cfg /\
      inferences h'
      = (inferences h + c * Z.to_nat (max_retries cfg - a))%nat.
Proof.
  intros Hd Hall; induction budget as [|budget IH]; intros a le h Hlt Hb;
    [lia|].
  destruct (Hall h) as (e & h1 & Ea & Hs1 & Hi1).
  destruct (retry_loop_raise env cfg video_path user_query video_type budget
              fuel a le h e h1 Hd Hlt Ea) as (_ & _ & ->).
  destruct (Z.ltb_spec (a + 1) (max_retries cfg)) as [Hlt1|Hge1].
  - destruct (IH (a + 1) (Some (str_exn e))
                ([EvSleep (retry_delay cfg)] ++ EvCaught (str_exn e) :: h1))
      as (msg & h' & -> & Hs & Hi); [lia|lia|].
    exists msg, h'; split; [reflexivity|].
    simpl in Hs, Hi; rewrite !inferences_cons in Hi; simpl in Hi.
    rewrite Hs, Hi, Hs1, Hi1; split; [lia|].
    replace (Z.to_nat (max_retries cfg - a))
      with (S (Z.to_nat (max_retries cfg - (a + 1)))) by lia.
    lia.
  - rewrite retry_loop_done by lia.
    eexists _, _; split; [reflexivity|]; simpl.
    rewrite inferences_cons; simpl.
    replace (Z.to_nat (max_retries cfg - a)) with 1%nat by lia.
    replace (max_retries cfg - a - 1) with 0 by lia.
    rewrite Hs1, Hi1; split; lia.
Qed.

(** When the loop ends in exhaustion, the error it reports was caught by
    the very last step: nothing, and no sleep in particular, follows. *)
Lemma retry_loop_failure_ends_caught budget fuel : forall a le h msg h',
  a < max_retries cfg ->
  retry_loop env cfg video_path user_query video_type budget fuel a le h
    = Some (Ok (Failure msg), h') ->
  exists last rest,
    h' = EvCaught last :: rest /\
    msg = failure_message (max_retries cfg) (Some last).
Proof.
  induction budget as [|budget IH]; intros a le h msg h' Hlt H.
  { simpl in H; destruct (Z.ltb_spec a (max_retries cfg)); [|lia].
    discriminate. }
  destruct (attempt env cfg video_path user_query video_type fuel h)
    as [[[[c pt]|e] h1]|] eqn:Ea.
  - simpl in H; destruct (Z.ltb_spec a (max_retries cfg)); [|lia].
    rewrite Ea in H; discriminate.
  - rewrite (retry_loop_step _ _ _ _ _ _ _ _ _ _ _ _ Hlt Ea) in H.
    apply bind_inv in H as [(x & _ & Hr)|(st' & h2 & Hh & H)];
      [discriminate|].
    apply on_exception_inv in Hh as [(_ & _ & Hr & _)|(Hr & -> & _)];
      [discriminate|].
    inversion Hr; subst; clear Hr; simpl fst in H; simpl snd in H.
    destruct (Z.ltb_spec (a + 1) (max_retries cfg)) as [Hlt1|Hge1].
    + eapply IH; eauto.
    + rewrite retry_loop_done in H by lia.
      inversion H; subst; simpl.
      eexists _, _; split; [reflexivity|]. f_equal; lia.
  - simpl in H; destruct (Z.ltb_spec a (max_retries cfg)); [|lia].
    rewrite Ea in H; discriminate.
Qed.

End Scenarios.

(** An exhausted call returns right after it caught the last error: the
    newest entry of its history is that caught error, whose text is the
    one in the message, and no sleep follows the last attempt. *)
Theorem exhaustion_returns_after_last_error env cfg video_path user_query
  video_type fuel h0 msg h' :
  1 <= max_retries cfg ->
  path_exists env h0 video_path = true ->
  analyze_video env cfg video_path user_query video_type fuel h0
    = Some (Ok (Failure msg), h') ->
  exists last rest,
    h' = EvCaught last :: rest /\
    msg = failure_message (max_retries cfg) (Some last).
Proof.
  intros HN Hp H; rewrite (analyze_video_found _ _ _ _ _ _ _ Hp) in H.
  eapply retry_loop_failure_ends_caught; [|exact H]; lia.
Qed.

Lemma exhaustion_returns_after_last_error_witness :
  exists rest,
    analyze_video Script.stuck (Script.config 2 2 5) "clip.mp4"
      "What happens?" "general" 7 []
    = Some (Ok (Failure
        "Analysis failed after 2 attempts. Last error: Video processing timeout"),
            EvCaught "Video processing timeout" :: rest).
Proof.
  let run := eval vm_compute in
    (analyze_video Script.stuck (Script.config 2 2 5) "clip.mp4"
       "What happens?" "general" 7 []) in
  match run with
  | Some (Ok (Failure ?m), ?h) =>
      destruct (exhaustion_returns_after_last_error Script.stuck
                  (Script.config 2 2 5) "clip.mp4" "What happens?"
                  "general" 7 [] m h) as (last & rest & Hh & Hm);
      [simpl; lia | reflexivity | vm_compute; reflexivity |];
      exists rest; inversion Hh; subst; vm_compute; reflexivity
  end.
Defined.

(** With every submission refused, the call sleeps only between
    attempts: [max_retries - 1] back-offs of one delay each, and it never
    calls the agent. *)
Theorem backoff_only_between_attempts env cfg video_path user_query
  video_type fuel h0 :
  1 <= max_retries cfg ->
  0 <= retry_delay cfg ->
  path_exists env h0 video_path = true ->
  (forall h, exists e, upload_file env h video_path = inl e) ->
  exists msg h',
    analyze_video env cfg video_path user_query video_type fuel h0
      = Some (Ok (Failure msg), h') /\
    slept h' = slept h0 + (max_retries cfg - 1) * retry_delay cfg /\
    inferences h' = inferences h0.
Proof.
  intros HN Hd Hp Hdown; rewrite (analyze_video_found _ _ _ _ _ _ _ Hp).
  destruct (retry_loop_all_raise env cfg video_path user_query video_type
              fuel 0 Hd) with (budget := Z.to_nat (max_retries cfg))
                              (a := 0) (le := @None string)
                              (h := EvExists video_path true :: h0)
    as (msg & h' & H & Hs & Hi); [|lia|lia|].
  - intros h; destruct (Hdown h) as [e He].
    exists e; eexists; split; [now apply attempt_refused|].
    rewrite inferences_cons; simpl; split; lia.
  - exists msg, h'; split; [exact H|].
    rewrite inferences_cons in Hi; simpl in Hs, Hi.
    rewrite Hs, Hi; split; lia.
Qed.

Lemma backoff_only_between_attempts_witness :
  exists msg h',
    analyze_video Script.down (Script.config 3 2 300) "clip.mp4"
      "What happens?" "general" 0 []
    = Some (Ok (Failure msg), h') /\
    slept h' = 4.
Proof.
  destruct (backoff_only_between_attempts Script.down (Script.config 3 2 300)
              "clip.mp4" "What happens?" "general" 0 [])
    as (msg & h' & H & Hs & _).
  - simpl; lia.
  - simpl; lia.
  - reflexivity.
  - intros h; eexists; reflexivity.
  - exists msg, h'; split; [exact H|exact Hs].
Defined.

(** An inference that fails costs a new upload: when every submission
    gives a handle that is out of PROCESSING and the agent raises on every
    call, the call uploads the file [max_retries] times, calls the agent
    [max_retries] times, and ends in exhaustion. *)
Theorem failed_inference_uploads_again env cfg video_path user_query
  video_type fuel h0 :
  1 <= max_retries cfg ->
  0 <= retry_delay cfg ->
  path_exists env h0 video_path = true ->
  (forall h, exists pv,
      upload_file env h video_path = inr pv /\
      file_state_name pv <> "PROCESSING"%string) ->
  (forall h p v, exists e, agent_run env h p v = inl e) ->
  exists msg h',
    analyze_video env cfg video_path user_query video_type fuel h0
      = Some (Ok (Failure msg), h') /\
    submissions h' = (submissions h0 + Z.to_nat (max_retries cfg))%nat /\
    inferences h' = (inferences h0 + Z.to_nat (max_retries cfg))%nat /\
    refreshes h' = refreshes h0.
Proof.
  intros HN Hd Hp Hup Hagent.
  assert (Hall : forall h, exists e h1,
             attempt env cfg video_path user_query video_type fuel h
               = Some (Raise e, h1) /\
             slept h1 = slept h /\
             inferences h1 = (inferences h + 1)%nat /\
             refreshes h1 = refreshes h).
  { intros h; destruct (Hup h) as (pv & Hu & Hst).
    rewrite (attempt_ready env cfg video_path user_query video_type fuel
               h pv Hu Hst).
    destruct (Hagent
                (EvTime (clock env (EvUpload video_path (inr pv) :: h))
                 :: EvUpload video_path (inr pv) :: h)
                (generate_analysis_prompt user_query video_type) pv)
      as [e ->].
    exists e; eexists; split; [reflexivity|].
    rewrite !inferences_cons, !refreshes_cons; simpl.
    split; [lia|split; lia]. }
  pose proof (analyze_video_found env cfg video_path user_query video_type
                fuel h0 Hp) as Hfound.
  destruct (retry_loop_all_raise env cfg video_path user_query video_type
              fuel 1 Hd) with (budget := Z.to_nat (max_retries cfg))
                              (a := 0) (le := @None string)
                              (h := EvExists video_path true :: h0)
    as (msg & h' & H & _ & Hi); [|lia|lia|].
  { intros h; destruct (Hall h) as (e & h1 & Ea & Hs & Hi & _); eauto. }
  rewrite <- Hfound in H.
  exists msg, h'; split; [exact H|].
  pose proof (analyze_video_inv _ _ _ _ _ _ _ _ _ Hp H)
    as (evs & -> & Hsu & _ & _).
  rewrite submissions_app, Hsu.
  rewrite inferences_cons in Hi; simpl in Hi.
  split; [lia|split; [lia|]].
  (* no attempt refreshes *)
  clear Hi Hsu.
  rewrite Hfound in H.
  assert (Hno : forall budget a le h r h1,
             retry_loop env cfg video_path user_query video_type budget fuel
               a le h = Some (r, h1) ->
             refreshes h1 = refreshes h).
  { induction budget as [|budget IH]; intros a le h r h1 Hl.
    - simpl in Hl; destruct (a <? max_retries cfg); [discriminate|].
      now inversion Hl.
    - destruct (Z.ltb_spec a (max_retries cfg)) as [Hlt|Hge];
        [|rewrite retry_loop_done in Hl by lia; now inversion Hl].
      destruct (Hall h) as (e & h2 & Ea & _ & _ & Hr).
      rewrite (retry_loop_step _ _ _ _ _ _ _ _ _ _ _ _ Hlt Ea) in Hl.
      apply bind_inv in Hl as [(x & Hh & ->)|(st' & h3 & Hh & Hl)];
        apply on_exception_inv in Hh
          as [(_ & _ & Hx & ->)|(Hx & -> & _)]; try discriminate.
      + rewrite refreshes_cons; simpl; exact Hr.
      + apply IH in Hl; rewrite Hl.
        destruct (a + 1 <? max_retries cfg); simpl;
          rewrite !refreshes_cons; simpl; exact Hr. }
  apply Hno in H; rewrite H, refreshes_cons; reflexivity.
Qed.

Lemma failed_inference_uploads_again_witness :
  exists msg h',
    analyze_video Faults.agent_down (Script.config 3 2 300) "clip.mp4"
      "What happens?" "general" 0 []
    = Some (Ok (Failure msg), h') /\
    submissions h' = 3%nat /\ inferences h' = 3%nat.
Proof.
  destruct (failed_inference_uploads_again Faults.agent_down
              (Script.config 3 2 300) "clip.mp4" "What happens?" "general"
              0 []) as (msg & h' & H & Hsu & Hi & _).
  - simpl; lia.
  - simpl; lia.
  - reflexivity.
  - intros h; exists Script.ready; split; [reflexivity|discriminate].
  - intros h p v; eexists; reflexivity.
  - exists msg, h'; split; [exact H|split; [exact Hsu|exact Hi]].
Defined.

Lemma retry_loop_return env cfg video_path user_query video_type budget fuel
  attempts last_error h content processing_time h1 :
  attempts < max_retries cfg ->
  attempt env cfg video_path user_query video_type fuel h
    = Some (Ok (content, processing_time), h1) ->
  retry_loop env cfg video_path user_query video_type (S budget) fuel
    attempts last_error h
  = Some (Ok (Success content processing_time), h1).
Proof.
  intros Hlt Ea; simpl.
  destruct (Z.ltb_spec attempts (max_retries cfg)); [|lia].
  now rewrite Ea.
Qed.

(** With a negative delay and at least two attempts allowed, the first
    attempt that raises makes [analyze_video] itself raise: the handler's
    own sleep is refused, outside the [try], after one submission and one
    spent attempt. *)
Theorem negative_delay_escapes env cfg video_path user_query video_type
  fuel h0 e h1 :
  retry_delay cfg < 0 ->
  2 <= max_retries cfg ->
  path_exists env h0 video_path = true ->
  attempt env cfg video_path user_query video_type fuel
    (EvExists video_path true :: h0) = Some (Raise e, h1) ->
  analyze_video env cfg video_path user_query video_type fuel h0
  = Some (Raise (ValueError "sleep length must be non-negative"),
          EvCaught (str_exn e) :: h1) /\
  submissions h1 = S (submissions h0).
Proof.
  intros Hneg HN Hp Ea; split.
  - rewrite (analyze_video_found _ _ _ _ _ _ _ Hp).
    destruct (Z.to_nat (max_retries cfg)) as [|budget] eqn:Eb; [lia|].
    assert (Hlt : 0 < max_retries cfg) by lia.
    rewrite (retry_loop_step _ _ _ _ _ _ _ _ _ _ _ _ Hlt Ea).
    unfold bind at 1, on_exception, bind, time_sleep.
    destruct (Z.ltb_spec (0 + 1) (max_retries cfg)); [|lia].
    destruct (Z.ltb_spec (retry_delay cfg) 0); [reflexivity|lia].
  - destruct (attempt_counts _ _ _ _ _ _ _ _ _ Ea) as (Hsu & _).
    now rewrite Hsu, submissions_cons.
Qed.

Lemma negative_delay_escapes_witness :
  analyze_video Script.down (Script.config 3 (-1) 300) "clip.mp4"
    "What happens?" "general" 0 []
  = Some (Raise (ValueError "sleep length must be non-negative"),
          [EvCaught "upload refused";
           EvUpload "clip.mp4" (inl (ServiceError "upload refused"));
           EvExists "clip.mp4" true]).
Proof.
  apply (negative_delay_escapes Script.down (Script.config 3 (-1) 300)
           "clip.mp4" "What happens?" "general" 0 []
           (ServiceError "upload refused")).
  - simpl; lia.
  - simpl; lia.
  - reflexivity.
  - reflexivity.
Defined.

(** The polling loop tests for PROCESSING only: a handle in any other
    state, FAILED included, is sent to the agent as it came back from the
    submission, with no refresh and no sleep, whatever the delay, the
    timeout and the fuel; the agent's answer is the result. *)
Theorem unchecked_state_goes_to_agent env cfg video_path user_query
  video_type fuel h0 pv content :
  1 <= max_retries cfg ->
  path_exists env h0 video_path = true ->
  upload_file env (EvExists video_path true :: h0) video_path = inr pv ->
  file_state_name pv <> "PROCESSING"%string ->
  agent_run env
    (EvTime (clock env (EvUpload video_path (inr pv)
                        :: EvExists video_path true :: h0))
     :: EvUpload video_path (inr pv) :: EvExists video_path true :: h0)
    (generate_analysis_prompt user_query video_type) pv = inr content ->
  exists t0 t1,
    analyze_video env cfg video_path user_query video_type fuel h0
    = Some (Ok (Success content (t1 - t0)),
            [EvTime t1;
             EvAgentRun (generate_analysis_prompt user_query video_type) pv
               (inr content);
             EvTime t0;
             EvUpload video_path (inr pv);
             EvExists video_path true] ++ h0).
Proof.
  intros HN Hp Hup Hst Hag.
  rewrite (analyze_video_found _ _ _ _ _ _ _ Hp).
  destruct (Z.to_nat (max_retries cfg)) as [|budget] eqn:Eb; [lia|].
  assert (Hlt : 0 < max_retries cfg) by lia.
  pose proof (attempt_ready env cfg video_path user_query video_type fuel
                _ pv Hup Hst) as Ea.
  cbv zeta in Ea; rewrite Hag in Ea.
  do 2 eexists.
  rewrite (retry_loop_return _ _ _ _ _ _ _ _ _ _ _ _ _ Hlt Ea).
  reflexivity.
Qed.

Lemma unchecked_state_goes_to_agent_witness :
  exists t0 t1 h',
    analyze_video Faults.failed_state (Script.config 3 2 300) "clip.mp4"
      "What happens?" "general" 0 []
    = Some (Ok (Success "OK" (t1 - t0)), h') /\
    In (EvAgentRun (generate_analysis_prompt "What happens?" "general")
          Faults.failed (inr "OK")) h'.
Proof.
  destruct (unchecked_state_goes_to_agent Faults.failed_state
              (Script.config 3 2 300) "clip.mp4" "What happens?" "general"
              0 [] Faults.failed "OK") as (t0 & t1 & H).
  - simpl; lia.
  - reflexivity.
  - reflexivity.
  - discriminate.
  - reflexivity.
  - exists t0, t1; eexists; split; [exact H|].
    right; left; reflexivity.
Defined.

(** ** The prompt of [generate_analysis_prompt] *)

Lemma append_assoc (a b c : string) :
  ((a ++ b) ++ c)%string = (a ++ (b ++ c))%string.
Proof. induction a as [|x a IH]; simpl; [reflexivity|now rewrite IH]. Qed.

Lemma append_inv_head (a b c : string) :
  (a ++ b)%string = (a ++ c)%string -> b = c.
Proof.
  induction a as [|x a IH]; simpl; intros H; [exact H|].
  inversion H; auto.
Qed.

Lemma append_inv_tail (c : string) : forall a b : string,
  (a ++ c)%string = (b ++ c)%string -> a = b.
Proof.
  induction a as [|x a IH]; intros [|y b] H; simpl in H.
  - reflexivity.
  - apply (f_equal String.length) in H; simpl in H.
    rewrite length_append in H; lia.
  - apply (f_equal String.length) in H; simpl in H.
    rewrite length_append in H; lia.
  - inversion H; subst; f_equal; now apply IH.
Qed.

Lemma append_longer (a b : string) :
  b <> ""%string -> (a ++ b)%string <> a.
Proof.
  intros Hb H; apply (f_equal String.length) in H.
  rewrite length_append in H; destruct b; [now apply Hb|simpl in H; lia].
Qed.

Lemma prompt_of_general user_query :
  generate_analysis_prompt user_query "general"
  = (base_prompt_head ++ Py.quote ++ user_query ++ Py.quote
     ++ base_prompt_tail)%string.
Proof. reflexivity. Qed.

(** The guidance for a type of video is looked up by its exact name:
    tutorial, presentation and product get the general prompt followed by
    their own text, which changes the prompt; every other name, general
    and Tutorial with a capital among them, gets the general prompt, and
    no name is an error. *)
Theorem guidance_only_for_known_types user_query video_type :
  (In video_type ["tutorial"; "presentation"; "product"] ->
   exists guidance,
     dict_get type_specific_prompts video_type = Some guidance /\
     generate_analysis_prompt user_query video_type
     = (generate_analysis_prompt user_query "general" ++ guidance)%string /\
     generate_analysis_prompt user_query video_type
     <> generate_analysis_prompt user_query "general") /\
  (~ In video_type ["tutorial"; "presentation"; "product"] ->
   generate_analysis_prompt user_query video_type
   = generate_analysis_prompt user_query "general") /\
  generate_analysis_prompt user_query "Tutorial"
  = generate_analysis_prompt user_query "general".
Proof.
  split; [|split; [|reflexivity]].
  - intros Hin.
    assert (Hget : exists guidance,
               dict_get type_specific_prompts video_type = Some guidance /\
               guidance <> ""%string).
    { simpl in Hin; destruct Hin as [<-|[<-|[<-|[]]]];
        eexists; (split; [reflexivity|discriminate]). }
    destruct Hget as (guidance & Hget & Hne).
    exists guidance; split; [exact Hget|].
    rewrite prompt_of_general; unfold generate_analysis_prompt.
    rewrite Hget; split; [reflexivity|].
    now apply append_longer.
  - intros Hnot; rewrite prompt_of_general.
    unfold generate_analysis_prompt.
    replace (dict_get type_specific_prompts video_type) with (@None string);
      [reflexivity|].
    unfold type_specific_prompts; cbn [dict_get].
    destruct (String.eqb_spec "tutorial" video_type) as [E|_];
      [exfalso; apply Hnot; subst; simpl; auto|].
    destruct (String.eqb_spec "presentation" video_type) as [E|_];
      [exfalso; apply Hnot; subst; simpl; auto|].
    destruct (String.eqb_spec "product" video_type) as [E|_];
      [exfalso; apply Hnot; subst; simpl; auto|].
    reflexivity.
Qed.

(** The question is put into the prompt as it is, and the prompt tells
    questions apart: for one type of video, two questions with the same
    prompt are the same question. *)
Theorem prompt_determines_question q1 q2 video_type :
  generate_analysis_prompt q1 video_type
  = generate_analysis_prompt q2 video_type ->
  q1 = q2.
Proof.
  unfold generate_analysis_prompt.
  destruct (dict_get type_specific_prompts video_type) as [guidance|];
    intros H; [apply append_inv_tail in H|];
    apply append_inv_head, append_inv_head in H;
    now apply append_inv_tail in H.
Qed.

Lemma prompt_determines_question_witness :
  "What happens?"%string = "What happens?"%string.
Proof.
  apply (prompt_determines_question "What happens?" "What happens?"
           "tutorial").
  reflexivity.
Defined.

(** ** More on the format check *)

Lemma lower_ascii_not_upper c :
  ((65 <=? nat_of_ascii (Py.lower_ascii c))
   && (nat_of_ascii (Py.lower_ascii c) <=? 90))%nat = false.
Proof.
  unfold Py.lower_ascii.
  destruct ((65 <=? nat_of_ascii c) && (nat_of_ascii c <=? 90))%nat eqn:E;
    [|exact E].
  apply andb_true_iff in E as [E1 E2].
  apply Nat.leb_le in E1, E2.
  rewrite nat_ascii_embedding by lia.
  apply andb_false_iff; right; apply Nat.leb_gt; lia.
Qed.

Lemma has_upper_lower s : has_upper (Py.lower s) = false.
Proof.
  induction s as [|c s IH]; [reflexivity|].
  cbn [Py.lower has_upper]; now rewrite lower_ascii_not_upper, IH.
Qed.

Lemma has_upper_append a b :
  has_upper (a ++ b)%string = has_upper a || has_upper b.
Proof.
  induction a as [|c a IH]; [reflexivity|].
  cbn [append has_upper]; now rewrite IH, orb_assoc.
Qed.

(** The name is lower-cased before the test and the configured formats
    are not: a configuration whose formats all contain an upper-case
    letter, such as MP4, refuses every file. *)
Theorem uppercase_format_never_matches cfg name :
  Forall (fun suffix => has_upper suffix = true) (supported_formats cfg) ->
  supported cfg name = false.
Proof.
  unfold supported, Py.endswith_any.
  induction (supported_formats cfg) as [|suffix l IH]; intros Hall;
    [reflexivity|].
  inversion Hall as [|? ? Hup Hl]; subst; simpl.
  rewrite (IH Hl), orb_false_r.
  destruct (Py.endswith (Py.lower name) suffix) eqn:E; [|reflexivity].
  apply endswith_spec in E as [pre Hpre].
  pose proof (has_upper_lower name) as Hlow.
  rewrite Hpre, has_upper_append, Hup, orb_true_r in Hlow; discriminate.
Qed.

Lemma uppercase_format_never_matches_witness :
  supported {| supported_formats := ["MP4"; "MOV"];
               max_retries := 3; retry_delay := 2; timeout := 300 |}
    "CLIP.MP4" = false.
Proof.
  apply uppercase_format_never_matches; simpl.
  repeat constructor.
Defined.

(** ** More on [main] *)

(** When the temporary file cannot be written, [process_video] raises
    the error of the write, [main] shows it as an application error, and
    the file, already created, is left behind. *)
Theorem failed_write_leaves_file env cfg w fuel h f p e :
  uploaded_video w = Some f ->
  supported cfg (uploaded_name f) = true ->
  temp_file env h = inr p ->
  write_file env (EvTempFile (inr p) :: h) p (uploaded_bytes f) = Some e ->
  let hw := EvWrite p (uploaded_bytes f) (Some e)
            :: EvTempFile (inr p) :: h in
  process_video env cfg (Some f) h = Some (Raise e, hw) /\
  (exists note,
     main env cfg w fuel h
     = Some (Ok tt,
             EvSt (StInfo note)
             :: EvSt (StError ("Application Error: " ++ str_exn e)%string)
             :: hw)) /\
  In p (staged hw).
Proof.
  intros Hf Hs Ht Hw hw.
  assert (Hpv : process_video env cfg (Some f) h = Some (Raise e, hw)).
  { unfold process_video; rewrite Hs; simpl.
    unfold bind, named_temporary_file, file_write.
    rewrite Ht; simpl; now rewrite Hw. }
  split; [exact Hpv|split].
  - unfold main, try_except, main_body; rewrite Hf.
    rewrite (bind_raise _ _ _ _ _ Hpv).
    eexists; reflexivity.
  - simpl; auto.
Qed.

Lemma failed_write_leaves_file_witness :
  In "/tmp/tmpvideo.mp4"%string
    (staged [EvWrite "/tmp/tmpvideo.mp4" "abc"
               (Some (ServiceError "No space left on device"));
             EvTempFile (inr "/tmp/tmpvideo.mp4")]).
Proof.
  apply (failed_write_leaves_file Faults.disk_full default_config
           {| selected_video_type := "general";
              uploaded_video := Some Faults.clip;
              typed_query := "What happens?";
              button_pressed := true |}
           0 [] Faults.clip "/tmp/tmpvideo.mp4"
           (ServiceError "No space left on device"));
    reflexivity.
Defined.

(** With the button pressed and a question typed, [main] shows the
    outcome of [analyze_video] and then unlinks the staged file: the
    result on success, the failure message on exhaustion, the text of the
    exception when the analysis raises; nothing is raised further. *)
Theorem main_reports_then_unlinks env cfg w fuel h f p r h3 :
  uploaded_video w = Some f ->
  supported cfg (uploaded_name f) = true ->
  temp_file env h = inr p ->
  write_file env (EvTempFile (inr p) :: h) p (uploaded_bytes f) = None ->
  button_pressed w = true ->
  is_empty (typed_query w) = false ->
  analyze_video env cfg p (typed_query w) (selected_video_type w) fuel
    (EvSt (StVideo p) :: EvWrite p (uploaded_bytes f) None
     :: EvTempFile (inr p) :: h) = Some (r, h3) ->
  main env cfg w fuel h = Some (Ok tt, EvUnlink p :: shown r ++ h3).
Proof.
  intros Hf Hs Ht Hw Hb Hq Ha.
  unfold main, try_except, main_body; rewrite Hf.
  rewrite (bind_ok _ _ _ _ _ (process_video_staged _ _ _ _ _ Hs Ht Hw)).
  unfold bind at 1, st at 1; rewrite Hb, Hq.
  unfold try_finally, try_except, path_unlink.
  unfold bind at 1; rewrite Ha.
  destruct r as [[content pt|msg]|e]; reflexivity.
Qed.

(** The staged file has vanished before the analysis: the page shows the
    error of the missing file and still unlinks. *)
Lemma main_reports_then_unlinks_witness :
  main Faults.vanished default_config
    {| selected_video_type := "general";
       uploaded_video := Some Faults.clip;
       typed_query := "What happens?";
       button_pressed := true |} 0 []
  = Some (Ok tt,
          [EvUnlink "/tmp/tmpvideo.mp4";
           EvSt (StError "An error occurred: Video file not found");
           EvExists "/tmp/tmpvideo.mp4" false;
           EvSt (StVideo "/tmp/tmpvideo.mp4");
           EvWrite "/tmp/tmpvideo.mp4" "abc" None;
           EvTempFile (inr "/tmp/tmpvideo.mp4")]).
Proof.
  apply (main_reports_then_unlinks Faults.vanished default_config
           {| selected_video_type := "general";
              uploaded_video := Some Faults.clip;
              typed_query := "What happens?";
              button_pressed := true |}
           0 [] Faults.clip "/tmp/tmpvideo.mp4"
           (Raise (FileNotFoundError "Video file not found")));
    reflexivity.
Defined.

(** Without a file, without the button pressed, or without a question,
    a run of [main] ends normally and reaches neither the upload service
    nor the agent, whatever the file system does. *)
Theorem idle_run_reaches_no_service env cfg w fuel h :
  uploaded_video w = None \/ button_pressed w = false
  \/ is_empty (typed_query w) = true ->
  exists h',
    main env cfg w fuel h = Some (Ok tt, h') /\
    submissions h' = submissions h /\
    inferences h' = inferences h /\
    attempts_spent h' = attempts_spent h.
Proof.
  intros Hidle.
  unfold main, try_except, main_body, process_video.
  destruct (uploaded_video w) as [f|];
    [|eexists; split; [reflexivity|auto]].
  destruct (supported cfg (uploaded_name f)); simpl;
    [|eexists; split; [reflexivity|];
      rewrite !submissions_cons, !inferences_cons, !attempts_spent_cons;
      auto].
  unfold bind, named_temporary_file, file_write, st, ret.
  destruct (temp_file env h) as [e|p]; simpl;
    [eexists; split; [reflexivity|];
     rewrite !submissions_cons, !inferences_cons, !attempts_spent_cons;
     auto|].
  destruct (write_file env _ p (uploaded_bytes f)) as [e|]; simpl;
    [eexists; split; [reflexivity|];
     rewrite !submissions_cons, !inferences_cons, !attempts_spent_cons;
     auto|].
  destruct (button_pressed w);
    [|eexists; split; [reflexivity|];
      rewrite !submissions_cons, !inferences_cons, !attempts_spent_cons;
      auto].
  destruct Hidle as [Hn|[Hb|Hq]]; try discriminate.
  rewrite Hq; eexists; split; [reflexivity|].
  rewrite !submissions_cons, !inferences_cons, !attempts_spent_cons; auto.
Qed.

Lemma idle_run_reaches_no_service_witness :
  exists h',
    main Script.down default_config
      {| selected_video_type := "general";
         uploaded_video := Some Faults.clip;
         typed_query := "";
         button_pressed := true |} 0 []
    = Some (Ok tt, h') /\
    submissions h' = 0%nat.
Proof.
  destruct (idle_run_reaches_no_service Script.down default_config
              {| selected_video_type := "general";
                 uploaded_video := Some Faults.clip;
                 typed_query := "";
                 button_pressed := true |} 0 [])
    as (h' & H & Hsu & _).
  - right; right; reflexivity.
  - exists h'; split; [exact H|exact Hsu].
Defined.

(** ** The result of a call, and the attempt a timeout costs *)

Lemma clock_advances_polling env cfg :
  clock_advances env -> 1 <= retry_delay cfg -> polling_advances env cfg.
Proof.
  intros Hc Hd; split.
  - intros t h; specialize (Hc (EvTime t) h); simpl in Hc; lia.
  - intros name r t h.
    pose proof (Hc (EvTime t) h) as C1.
    pose proof (Hc (EvSleep (retry_delay cfg)) (EvTime t :: h)) as C2.
    pose proof (Hc (EvGetFile name r)
                  (EvSleep (retry_delay cfg) :: EvTime t :: h)) as C3.
    simpl in C1, C2, C3; lia.
Qed.

(** The scripted clock ticks with every recorded call, so it moves on
    over a round of polling whatever the delay. *)
Lemma wall_clock_polling env cfg :
  clock env = Script.wall_clock -> polling_advances env cfg.
Proof.
  intros Hc; unfold polling_advances; rewrite Hc; split.
  - intros t h; simpl; lia.
  - intros name r t h; simpl; lia.
Qed.

Section Returns.

Variable env : Env.
Variable cfg : VideoAnalysisConfig.
Variables video_path user_query video_type : string.

Hypothesis Hpoll : polling_advances env cfg.
Hypothesis Hdelay : 0 <= retry_delay cfg.

(** The rounds left before the timeout bound the fuel the polling loop
    needs. *)
Lemma poll_ends fuel : forall start pv h,
  start <= clock env h ->
  (Z.to_nat (timeout cfg + 1 - (clock env h - start)) < fuel)%nat ->
  exists r h', poll env cfg fuel start pv h = Some (r, h').
Proof.
  destruct Hpoll as [_ Hround].
  induction fuel as [|fuel IH]; intros start pv h Hstart Hfuel; [lia|].
  simpl. destruct (file_state_name pv =? "PROCESSING")%string;
    [|unfold ret; eauto].
  unfold bind at 1, time_time at 1.
  destruct (Z.ltb_spec (timeout cfg) (clock env h - start)) as [Hout|Hin];
    [unfold raise; eauto|].
  unfold bind at 1, time_sleep at 1.
  destruct (Z.ltb_spec (retry_delay cfg) 0) as [Hneg|Hpos]; [lia|].
  unfold bind at 1, genai_get_file at 1.
  destruct (get_file env _ (file_name pv)) as [e|pv1] eqn:Eg; simpl;
    [eauto|].
  pose proof (Hround (file_name pv) (inr pv1) (clock env h) h) as C.
  apply IH; lia.
Qed.

Lemma attempt_ends fuel h :
  (Z.to_nat (timeout cfg + 1) < fuel)%nat ->
  exists r h',
    attempt env cfg video_path user_query video_type fuel h = Some (r, h').
Proof.
  intros Hfuel; unfold attempt.
  unfold bind at 1, genai_upload_file at 1.
  destruct (upload_file env h video_path) as [e|pv] eqn:Eup; simpl;
    [eauto|].
  unfold bind at 1, time_time at 1.
  destruct Hpoll as [Hread _].
  pose proof (Hread (clock env (EvUpload video_path (inr pv) :: h))
                (EvUpload video_path (inr pv) :: h)) as C.
  destruct (poll_ends fuel (clock env (EvUpload video_path (inr pv) :: h)) pv
              (EvTime (clock env (EvUpload video_path (inr pv) :: h))
               :: EvUpload video_path (inr pv) :: h))
    as (r & h2 & Hp); [lia|lia|].
  unfold bind at 1; rewrite Hp.
  destruct r as [pv'|e]; [|eauto].
  unfold bind at 1, agent_run_content at 1.
  destruct (agent_run env h2 _ pv') as [e|c]; simpl; [eauto|].
  unfold bind, time_time, ret; eauto.
Qed.



End Returns.


Section Answers.

Variable env : Env.
Variable cfg : VideoAnalysisConfig.
Variables video_path user_query video_type : string.

Let prompt := generate_analysis_prompt user_query video_type.

(** The content an attempt returns is what the agent answered, and the
    call of the agent is the last one before the closing clock reading. *)
Lemma attempt_answer fuel h content pt h' :
  attempt env cfg video_path user_query video_type fuel h
    = Some (Ok (content, pt), h') ->
  exists t1 pv' rest,
    h' = EvTime t1 :: EvAgentRun prompt pv' (inr content) :: rest /\
    agent_run env rest prompt pv' = inr content.
Proof.
  unfold attempt; intros H.
  apply bind_inv in H as [(e & _ & Hr)|(pv & h1 & _ & H)]; [discriminate|].
  apply bind_inv in H as [(e & _ & Hr)|(t0 & h2 & _ & H)]; [discriminate|].
  apply bind_inv in H as [(e & _ & Hr)|(pv' & h3 & _ & H)]; [discriminate|].
  apply bind_inv in H as [(e & _ & Hr)|(c & h4 & Ha & H)]; [discriminate|].
  unfold agent_run_content in Ha; inversion Ha as [[Hl Hh]]; subst h4.
  fold prompt in Hl, H.
  destruct (agent_run env h3 prompt pv') as [e|c'] eqn:Eag;
    simpl in Hl; inversion Hl; subst c'; clear Hl Ha.
  apply bind_inv in H as [(e & _ & Hr)|(t1 & h5 & Ht & H)]; [discriminate|].
  unfold time_time in Ht; inversion Ht; subst; clear Ht.
  unfold ret in H; inversion H; subst.
  eexists _, pv', h3; split; [reflexivity|exact Eag].
Qed.

Lemma retry_loop_answer budget fuel : forall a le h content pt h',
  retry_loop env cfg video_path user_query video_type budget fuel a le h
    = Some (Ok (Success content pt), h') ->
  exists t1 pv' rest,
    h' = EvTime t1 :: EvAgentRun prompt pv' (inr content) :: rest /\
    agent_run env rest prompt pv' = inr content.
Proof.
  induction budget as [|budget IH]; intros a le h content pt h' H.
  { simpl in H; destruct (a <? max_retries cfg); discriminate. }
  destruct (Z.ltb_spec a (max_retries cfg)) as [Hlt|Hge];
    [|rewrite retry_loop_done in H by lia; discriminate].
  destruct (attempt env cfg video_path user_query video_type fuel h)
    as [[[[c p]|e] h1]|] eqn:Ea.
  - rewrite (retry_loop_return _ _ _ _ _ _ _ _ _ _ _ _ _ Hlt Ea) in H.
    inversion H; subst; eapply attempt_answer; eauto.
  - rewrite (retry_loop_step _ _ _ _ _ _ _ _ _ _ _ _ Hlt Ea) in H.
    apply bind_inv in H as [(x & _ & Hr)|(st' & h2 & _ & H)];
      [discriminate|eauto].
  - simpl in H; destruct (Z.ltb_spec a (max_retries cfg)); [|lia].
    rewrite Ea in H; discriminate.
Qed.

(** A run of the loop that returns a success is a run up to its first
    successful attempt, reached within the budget. *)
Lemma retry_loop_first_success budget fuel : forall a le h content pt h',
  retry_loop env cfg video_path user_query video_type budget fuel a le h
    = Some (Ok (Success content pt), h') ->
  exists k : nat,
    a + Z.of_nat k < max_retries cfg /\
    first_success env cfg video_path user_query video_type fuel k a h
    = Some (content, pt, h').
Proof.
  induction budget as [|budget IH]; intros a le h content pt h' H.
  { simpl in H; destruct (a <? max_retries cfg); discriminate. }
  destruct (Z.ltb_spec a (max_retries cfg)) as [Hlt|Hge];
    [|rewrite retry_loop_done in H by lia; discriminate].
  destruct (attempt env cfg video_path user_query video_type fuel h)
    as [[[[c p]|e] h1]|] eqn:Ea.
  - rewrite (retry_loop_return _ _ _ _ _ _ _ _ _ _ _ _ _ Hlt Ea) in H.
    inversion H; subst.
    exists 0%nat; split; [lia|]; simpl; now rewrite Ea.
  - rewrite (retry_loop_step _ _ _ _ _ _ _ _ _ _ _ _ Hlt Ea) in H.
    apply bind_inv in H as [(x & _ & Hr)|(st' & h2 & Hh & H)];
      [discriminate|].
    destruct (IH _ _ _ _ _ _ H) as (k & Hk & Hfs).
    pose proof Hh as Hh'.
    apply on_exception_inv in Hh' as [(_ & _ & Hr & _)|(Hr & _ & _)];
      [discriminate|].
    inversion Hr; subst st'; simpl in Hk.
    exists (S k); split; [lia|]; simpl; now rewrite Ea, Hh.
  - simpl in H; destruct (Z.ltb_spec a (max_retries cfg)); [|lia].
    rewrite Ea in H; discriminate.
Qed.


End Answers.

(** C1: a call of [analyze_video] on an existing path returns a result
    and raises nothing, for every delay that is not negative.  Whatever
    the fuel, a call that ends gives a result and no exception, and which
    of the two results is settled by the attempts: it is the success of
    the first attempt that returns, carrying what the agent answered in
    it, when that attempt comes after fewer than [max_retries] caught
    errors; otherwise, when no attempt within the budget returns, it is
    the failure, after [max_retries] submissions and as many caught
    errors, whose message carries that number and the text of the error
    caught last.  With a clock that moves on over a round of polling,
    fuel above the timeout is enough for the call to end. *)
Theorem analyze_video_returns_result env cfg video_path user_query video_type
  h0 :
  path_exists env h0 video_path = true ->
  0 <= retry_delay cfg ->
  (forall fuel r h',
     analyze_video env cfg video_path user_query video_type fuel h0
       = Some (r, h') ->
     (exists outcome evs,
        r = Ok outcome /\ h' = evs ++ h0 /\
        call_post env cfg video_path user_query video_type h0 (Ok outcome)
          evs /\
        match outcome with
        | Success content processing_time =>
            (exists k : nat,
               Z.of_nat k < max_retries cfg /\
               first_success env cfg video_path user_query video_type fuel
                 k 0 (EvExists video_path true :: h0)
               = Some (content, processing_time, h')) /\
            (exists t1 pv' rest,
               h' = EvTime t1
                    :: EvAgentRun
                         (generate_analysis_prompt user_query video_type)
                         pv' (inr content)
                    :: rest /\
               agent_run env rest
                 (generate_analysis_prompt user_query video_type) pv'
               = inr content)
        | Failure msg =>
            (forall k : nat,
               Z.of_nat k < max_retries cfg ->
               first_success env cfg video_path user_query video_type fuel
                 k 0 (EvExists video_path true :: h0) = None) /\
            attempts_spent evs = Z.to_nat (max_retries cfg) /\
            msg = failure_message (Z.of_nat (attempts_spent evs))
                    (last_caught evs)
        end) /\
     (forall (k : nat) content processing_time hk,
        Z.of_nat k < max_retries cfg ->
        first_success env cfg video_path user_query video_type fuel k 0
          (EvExists video_path true :: h0)
        = Some (content, processing_time, hk) ->
        r = Ok (Success content processing_time) /\ h' = hk)) /\
  (polling_advances env cfg ->
   forall fuel,
     (Z.to_nat (timeout cfg + 1) < fuel)%nat ->
     exists outcome h',
       analyze_video env cfg video_path user_query video_type fuel h0
       = Some (Ok outcome, h')).
Proof.
  intros Hp Hdelay.
  assert (Hfirst : forall fuel r h',
             analyze_video env cfg video_path user_query video_type fuel h0
               = Some (r, h') ->
             forall (k : nat) content processing_time hk,
               Z.of_nat k < max_retries cfg ->
               first_success env cfg video_path user_query video_type fuel
                 k 0 (EvExists video_path true :: h0)
               = Some (content, processing_time, hk) ->
               r = Ok (Success content processing_time) /\ h' = hk).
  { intros fuel r h' H k c pt hk Hk Hrun.
    pose proof (first_success_loop env cfg video_path user_query
                  video_type fuel c pt hk k
                  (Z.to_nat (max_retries cfg)) 0 None
                  (EvExists video_path true :: h0) Hrun) as Hloop.
    rewrite <- (analyze_video_found _ _ _ _ _ _ _ Hp) in Hloop.
    rewrite Hloop in H by lia.
    inversion H; auto. }
  split.
  - intros fuel r h' H; split; [|exact (Hfirst fuel r h' H)].
    destruct (analyze_video_never_raises _ _ _ _ _ _ _ _ _ Hdelay Hp H)
      as [o ->].
    pose proof (analyze_video_inv _ _ _ _ _ _ _ _ _ Hp H)
      as (evs & -> & Hpost).
    exists o, evs; split; [reflexivity|split; [reflexivity|]].
    split; [exact Hpost|].
    destruct o as [c pt|msg].
    + pose proof H as Hloop.
      rewrite (analyze_video_found _ _ _ _ _ _ _ Hp) in Hloop.
      split; [|eapply retry_loop_answer; eauto].
      destruct (retry_loop_first_success _ _ _ _ _ _ _ _ _ _ _ _ _ Hloop)
        as (k & Hk & Hfs).
      exists k; split; [lia|exact Hfs].
    + split.
      * intros k Hk.
        destruct (first_success env cfg video_path user_query video_type
                    fuel k 0 (EvExists video_path true :: h0))
          as [[[c pt] hk]|] eqn:Hfs; [|reflexivity].
        destruct (Hfirst fuel _ _ H k c pt hk Hk Hfs) as [Hr _].
        discriminate.
      * destruct Hpost as (_ & Hsp & ->); rewrite Hsp; auto.
  - intros Hpoll fuel Hfuel.
    destruct (analyze_video_terminates env cfg video_path user_query
                video_type fuel) with (h0 := h0) as (r & h' & H).
    { intros h; eapply attempt_ends; eauto. }
    destruct (analyze_video_never_raises _ _ _ _ _ _ _ _ _ Hdelay Hp H)
      as [o ->].
    eauto.
Qed.

(** Every submission refused, three attempts allowed: the call ends, and
    it ends in the failure variant. *)
Lemma analyze_video_returns_result_witness :
  exists evs,
    analyze_video Script.down (Script.config 3 2 300)
      "clip.mp4" "What happens?" "general" 302 []
    = Some (Ok (Failure
                  "Analysis failed after 3 attempts. Last error: upload refused"),
            evs ++ []) /\
    attempts_spent evs = 3%nat /\
    submissions evs = 3%nat.
Proof.
  destruct (analyze_video_returns_result Script.down (Script.config 3 2 300)
              "clip.mp4" "What happens?" "general" [])
    as [Hany Hends].
  - reflexivity.
  - simpl; lia.
  - destruct (Hends (wall_clock_polling Script.down (Script.config 3 2 300)
                       eq_refl) 302%nat) as (o & h' & H);
      [simpl; lia|].
    destruct (Hany 302%nat (Ok o) h' H)
      as [(o' & evs & Ho & -> & Hpost & _) _].
    inversion Ho; subst o'; clear Ho.
    exists evs.
    assert (Hrun : analyze_video Script.down (Script.config 3 2 300)
                     "clip.mp4" "What happens?" "general" 302 []
                   = Some (Ok o, evs ++ [])) by exact H.
    vm_compute in H; inversion H as [[Hout Hh]].
    rewrite <- Hout in Hpost; destruct Hpost as (Hsu & Hsp & _).
    rewrite Hrun, <- Hout.
    split; [reflexivity|split; [exact Hsp|exact Hsu]].
Defined.



(** ** The stock analysis script *)

Module FinanceFacts.

Import Finance.

Lemma count_cons p e h :
  count p (e :: h) = ((if p e then 1 else 0) + count p h)%nat.
Proof. unfold count; simpl; destruct (p e); reflexivity. Qed.

Lemma count_app p a b : count p (a ++ b) = (count p a + count p b)%nat.
Proof. unfold count; now rewrite filter_app, length_app. Qed.

(** Constructions that went through are no log record, no printed line
    and no call of the agent. *)
Lemma count_constructed p objs :
  (forall o r, p (EvNew o r) = false) ->
  count p (constructed objs) = 0%nat.
Proof.
  intros Hp; unfold constructed.
  induction objs as [|o objs IH]; [reflexivity|].
  simpl; rewrite count_app, IH, count_cons, Hp; reflexivity.
Qed.

Ltac step_construct env i key :=
  match goal with
  | |- context [construct env ?h ?o] =>
      lazymatch h with
      | context [construct] => fail
      | _ =>
          destruct (construct env h o) as [e|] eqn:?;
          [exists (firstn i (constructions key)),
                  (nth i (constructions key) (OTool DuckDuckGo)),
                  (skipn (S i) (constructions key)); split; reflexivity|]
      end
  end.

(** [setup_groq_agent] constructs its six objects in order and stops at
    the first constructor that raises: that exception is logged once,
    with its text, and raised again unchanged; when all six go through
    the team agent is returned and nothing is logged. *)
Theorem setup_logs_and_reraises env groq_api_key h :
  let (r, h') := setup_groq_agent env groq_api_key h in
  match r with
  | Ok agent =>
      agent = multi_agent_of (groq_model_of groq_api_key) /\
      h' = constructed (constructions groq_api_key) ++ h
  | Raise e =>
      exists done o rest,
        constructions groq_api_key = done ++ o :: rest /\
        h' = EvLogError ("Failed to create agent: " ++ str_exn e)%string
             :: EvNew o (Some e) :: constructed done ++ h
  end.
Proof.
  cbv beta zeta delta [setup_groq_agent try_except bind new ret raise
                       logging_error].
  step_construct env 0%nat groq_api_key.
  step_construct env 1%nat groq_api_key.
  step_construct env 2%nat groq_api_key.
  step_construct env 3%nat groq_api_key.
  step_construct env 4%nat groq_api_key.
  step_construct env 5%nat groq_api_key.
  split; reflexivity.
Qed.

(** The script never ends in an exception, and it either logs a failed
    setup or calls the agent, never both and never neither: after a
    failed setup no analysis is run and the error is reported twice, in
    the log and on the output, with the same text; a failed analysis is
    printed and not logged. *)
Theorem script_logs_or_analyses env GROQ_API_KEY h :
  exists h',
    script env GROQ_API_KEY h = (Ok tt, h') /\
    (count is_log h' + count is_print_response h'
     = S (count is_log h + count is_print_response h))%nat /\
    (count is_print h' <= S (count is_print h))%nat /\
    match setup_groq_agent env GROQ_API_KEY h with
    | (Raise e, h1) =>
        exists rest,
          h' = EvPrint ("Error setting up or running agent: "
                        ++ str_exn e)%string
               :: EvLogError ("Failed to create agent: " ++ str_exn e)%string
               :: rest /\
          count is_print_response h' = count is_print_response h
    | (Ok agent, h1) =>
        count is_log h' = count is_log h /\
        In (EvPrintResponse agent
              (stock_prompt_head ++ "TSLA" ++ stock_prompt_tail)%string true
              (print_response env h1 agent
                 (stock_prompt_head ++ "TSLA" ++ stock_prompt_tail)%string
                 true)) h'
    end.
Proof.
  pose proof (setup_logs_and_reraises env GROQ_API_KEY h) as Hsetup.
  unfold script, try_except, bind at 1.
  destruct (setup_groq_agent env GROQ_API_KEY h) as [[agent|e] h1].
  - destruct Hsetup as [-> ->].
    unfold analyze_stock, agent_print_response.
    set (prompt := (stock_prompt_head ++ "TSLA" ++ stock_prompt_tail)%string).
    set (hc := constructed (constructions GROQ_API_KEY) ++ h).
    assert (Hc : forall p, (forall o r, p (EvNew o r) = false) ->
                           count p hc = count p h).
    { intros p Hp; subst hc; now rewrite count_app, count_constructed. }
    destruct (print_response env hc _ prompt true) as [e|];
      unfold print; eexists; (split; [reflexivity|]);
      rewrite ?count_cons; cbn [is_log is_print_response is_print];
      rewrite !Hc by reflexivity;
      (split; [lia|split; [lia|split; [lia|simpl; auto]]]).
  - destruct Hsetup as (done & o & rest & _ & ->).
    unfold print; eexists; split; [reflexivity|].
    assert (Hc : forall p, (forall o r, p (EvNew o r) = false) ->
                           count p (constructed done ++ h) = count p h).
    { intros p Hp; now rewrite count_app, count_constructed. }
    rewrite ?count_cons; cbn [is_log is_print_response is_print].
    rewrite !Hc by reflexivity.
    split; [lia|split; [lia|]].
    eexists; split; [reflexivity|]; lia.
Qed.

(** A run with the finance tools missing: three objects are built, the
    failure is logged and printed, and the agent is never called. *)
Example script_without_yfinance :
  let h' := snd (script no_yfinance "key" []) in
  fst (script no_yfinance "key" []) = Ok tt /\
  count is_log h' = 1%nat /\
  count is_print h' = 1%nat /\
  count is_print_response h' = 0%nat /\
  List.length h' = 6%nat.
Proof. repeat split. Qed.

End FinanceFacts.
